(** * GitHub Local Actions: the command layer, the configuration manager and
      the decoration provider

    A shallow embedding of the class [Act] ([src/act.ts]), of the class
    [DecorationProvider] ([src/views/decorationProvider.ts]) and of the
    namespace [ConfigurationManager], followed by the properties of the
    specification that are checked against them.

    Conventions of the embedding:
    - a JavaScript string is a [string] (a sequence of code units);
    - [undefined] and [null] are [None];
    - a JavaScript object used as a table from names to strings is a
      [gmap string string] over its own properties, read through
      [JS.get_property], which falls back on [Object.prototype];
    - every call the code makes into the host (editor API, component manager,
      child process) is recorded as an [Effect]; what the host answers is read
      from a [Host] record;
    - a callback the code hands to the host is returned next to the effects,
      as a [Pending] value, and is run by [run] when the host fires it. *)

From Stdlib Require Import ZArith Ascii.
From stdpp Require Import gmap strings list fin_maps.

Local Open Scope Z_scope.

(** ** JavaScript primitives the code relies on *)
Module JS.

Definition LF : ascii := "010"%char.
Definition CR : ascii := "013"%char.
Definition DQUOTE : ascii := "034"%char.

(** The literal ['\n']. *)
Definition nl : string := String LF "".
(** The literal ['\r\n']. *)
Definition crlf : string := String CR (String LF "").
(** A double quote inside a template literal. *)
Definition dquote : string := String DQUOTE "".

(** Truthiness of a string: only [''] is falsy. *)
Definition truthy_string (s : string) : bool :=
  match s with
  | "" => false
  | String _ _ => true
  end.

(** Truthiness of a value of type [string | undefined] (or [string | null]). *)
Definition truthy (v : option string) : bool :=
  match v with
  | Some s => truthy_string s
  | None => false
  end.

(** [code || d] for [code : number | null]: [null] and [0] are falsy. *)
Definition or_number (code : option Z) (d : Z) : Z :=
  match code with
  | Some n => if n =? 0 then d else n
  | None => d
  end.

(** [s.replaceAll(searchValue, replaceValue)] for a non-empty search string
    and a replacement without [$] patterns: every occurrence, found from left
    to right without overlap, is replaced. [skip] counts the code units of
    the occurrence just replaced that are still to be passed over. *)
Fixpoint replaceAll_from (skip : nat) (searchValue replaceValue s : string) : string :=
  match s with
  | "" => ""
  | String a s' =>
      match skip with
      | S k => replaceAll_from k searchValue replaceValue s'
      | O =>
          if String.prefix searchValue s
          then replaceValue +:+
               replaceAll_from (String.length searchValue - 1) searchValue replaceValue s'
          else String a (replaceAll_from O searchValue replaceValue s')
      end
  end.

Definition replaceAll (searchValue replaceValue s : string) : string :=
  replaceAll_from O searchValue replaceValue s.

(** [v === s] for [v : string | null] and a string [s]. *)
Definition strict_eq (v : option string) (s : string) : bool :=
  match v with
  | Some x => String.eqb x s
  | None => false
  end.

(** What reading a property of a table gives: a string of the table, or
    the member of [Object.prototype] of that name (a function, or for
    [__proto__] the prototype itself: an object either way). *)
Inductive Value :=
| Str (s : string)
| Inherited (name : string).

(** The own property names of [Object.prototype]. *)
Definition Object_prototype : list string :=
  [ "constructor"; "__defineGetter__"; "__defineSetter__"; "hasOwnProperty";
    "__lookupGetter__"; "__lookupSetter__"; "isPrototypeOf";
    "propertyIsEnumerable"; "toString"; "valueOf"; "__proto__";
    "toLocaleString" ].

(** [o[name]] for an object literal [o] whose own properties are [own]: an
    own property first, then the prototype chain, [undefined] at its end. *)
Definition get_property (own : gmap string string) (name : string) : option Value :=
  match own !! name with
  | Some s => Some (Str s)
  | None =>
      if bool_decide (name ∈ Object_prototype) then Some (Inherited name) else None
  end.

(** Truthiness of such a value: an object is truthy. *)
Definition truthy_value (v : Value) : bool :=
  match v with
  | Str s => truthy_string s
  | Inherited _ => true
  end.

(** [xs.join(sep)]. *)
Definition join (sep : string) (xs : list string) : string :=
  String.concat sep xs.

End JS.

(** ** Node's [path] module (POSIX flavour) *)
Module Path.

Definition is_slash (c : ascii) : bool := Ascii.eqb c "/"%char.

Fixpoint drop_slashes (cs : list ascii) : list ascii :=
  match cs with
  | c :: cs' => if is_slash c then drop_slashes cs' else cs
  | [] => []
  end.

Fixpoint until_slash (cs : list ascii) : list ascii :=
  match cs with
  | c :: cs' => if is_slash c then [] else c :: until_slash cs'
  | [] => []
  end.

(** Whether a separator occurs in [s]. *)
Fixpoint has_slash (s : string) : bool :=
  match s with
  | "" => false
  | String a s' => is_slash a || has_slash s'
  end.

(** [path.parse(p).base]: [parse] scans [p] from its last code unit towards
    the first, passes over the separators that end the path, and then takes
    the code units up to the next separator (or the start of the path). *)
Definition parse_base (p : string) : string :=
  String.string_of_list_ascii
    (rev (until_slash (drop_slashes (rev (String.list_ascii_of_string p))))).

End Path.

(** ** The part of the editor API and of Node's [child_process] the code calls *)
Module Vscode.

Record Uri := { scheme : string; fsPath : string; query : string }.

Record WorkspaceFolder := { folder_uri : Uri; folder_name : string }.

(** The [scope] of a task: [TaskScope.Global], [TaskScope.Workspace] or a
    workspace folder. *)
Inductive TaskScope :=
| TaskScope_Global
| TaskScope_Workspace
| TaskScope_Folder (folder : WorkspaceFolder).

Inductive TaskRevealKind := Reveal_Always | Reveal_Silent | Reveal_Never.
Inductive TaskPanelKind := Panel_Shared | Panel_Dedicated | Panel_New.
Inductive TaskGroup := Group_Clean | Group_Build | Group_Rebuild | Group_Test.

Record TaskPresentationOptions := {
  reveal : TaskRevealKind;
  focus : bool;
  clear : bool;
  close : bool;
  echo : bool;
  panel : TaskPanelKind;
  showReuseMessage : bool
}.

(** [new CustomExecution(callback)] (the callback itself is a [Pending]
    value, see below) or [new ShellExecution(commandLine)], with the value
    the code passes as command line. *)
Inductive Execution :=
| CustomExecution
| ShellExecution (commandLine : JS.Value).

(** The object handed to [tasks.executeTask]; [runOptions] is always the
    empty object. *)
Record Task := {
  task_name : string;
  detail : string;
  definition_type : string;
  source : string;
  scope : TaskScope;
  isBackground : bool;
  presentationOptions : TaskPresentationOptions;
  problemMatchers : list string;
  group : TaskGroup;
  execution : Execution
}.

(** One call into the host, in the order the calls are made. *)
Inductive Effect :=
| getUnreadyComponents
| showErrorMessage (message : string) (items : list string)
| executeCommand (command : string)
| getWorkspaceFolder (uri : Uri)
| executeTask (task : Task)
| writeEmitter_fire (data : string)
| closeEmitter_fire (code : Z)
| spawn (command : string) (cwd : string) (shell : string).

(** The three listeners registered on a spawned child: [stdout.on('data')],
    [stderr.on('data')] and [on('close')]. *)
Record ChildProcess := {
  stdout_on_data : string → list Effect;
  stderr_on_data : string → list Effect;
  on_close : option Z → list Effect
}.

(** The [Pseudoterminal] a [CustomExecution] callback returns: [open] yields
    the effects of opening and the child it has spawned. *)
Record Pseudoterminal := {
  pty_open : list Effect * ChildProcess;
  pty_close : list Effect
}.

(** What a call leaves behind for the host to run later. *)
Inductive Pending :=
| Returned
| Then (onfulfilled : option string → list Effect)
| Callback (pty : Pseudoterminal).

(** What the child process does once spawned, as the host delivers it; a
    chunk stands for its decoded text, [data.toString()]. *)
Inductive ChildEvent :=
| stdout_data (chunk : string)
| stderr_data (chunk : string)
| child_close (code : option Z).

Definition deliver (exec : ChildProcess) (e : ChildEvent) : list Effect :=
  match e with
  | stdout_data chunk => stdout_on_data exec chunk
  | stderr_data chunk => stderr_on_data exec chunk
  | child_close code => on_close exec code
  end.

(** The answers of the user and of the child in one run: the button picked
    in an error message ([None]: dismissed) and the events of the child. *)
Record Scenario := {
  picked : option string;
  child_events : list ChildEvent
}.

(** The whole trace of a call: its own effects, then those of the callback it
    left behind, run by the host (a thenable is resolved with the user's
    pick; a custom execution is started, its terminal opened and the child's
    events delivered to the listeners). *)
Definition run (sc : Scenario) (call : list Effect * Pending) : list Effect :=
  call.1 ++
  match call.2 with
  | Returned => []
  | Then onfulfilled => onfulfilled (picked sc)
  | Callback pty =>
      (pty_open pty).1 ++ flat_map (deliver (pty_open pty).2) (child_events sc)
  end.

Definition is_spawn (e : Effect) : bool :=
  match e with spawn _ _ _ => true | _ => false end.

Definition is_executeTask (e : Effect) : bool :=
  match e with executeTask _ => true | _ => false end.

Definition is_showErrorMessage (e : Effect) : bool :=
  match e with showErrorMessage _ _ => true | _ => false end.

Definition is_getWorkspaceFolder (e : Effect) : bool :=
  match e with getWorkspaceFolder _ => true | _ => false end.

End Vscode.

(** ** The class [Act] *)
Module Act.
Import Vscode.

(** The fields of a component and of a workflow that the code reads. *)
Record Component := { component_name : string }.
Record Workflow := { workflow_name : string; workflow_uri : Uri }.

(** What the collaborators answer during a call: the component manager, the
    workspace, the environment and the clock. *)
Record Host := {
  unreadyComponents : list Component;
  workspaceFolderOf : Uri → option WorkspaceFolder;
  env_shell : string;
  toLocaleTimeString : string
}.

(** The events that trigger a workflow, with the names GitHub gives them. *)
Inductive EventTrigger :=
| EventTrigger_BranchProtectionRule
| EventTrigger_CheckRun
| EventTrigger_CheckSuite
| EventTrigger_Create
| EventTrigger_Delete
| EventTrigger_Deployment
| EventTrigger_DeploymentStatus
| EventTrigger_Discussion
| EventTrigger_DiscussionComment
| EventTrigger_Fork
| EventTrigger_Gollum
| EventTrigger_IssueComment
| EventTrigger_Issues
| EventTrigger_Label
| EventTrigger_MergeGroup
| EventTrigger_Milestone
| EventTrigger_PageBuild
| EventTrigger_Public
| EventTrigger_PullRequest
| EventTrigger_PullRequestComment
| EventTrigger_PullRequestReview
| EventTrigger_PullRequestReviewComment
| EventTrigger_PullRequestTarget
| EventTrigger_Push
| EventTrigger_RegistryPackage
| EventTrigger_Release
| EventTrigger_RepositoryDispatch
| EventTrigger_Schedule
| EventTrigger_Status
| EventTrigger_Watch
| EventTrigger_WorkflowCall
| EventTrigger_WorkflowDispatch
| EventTrigger_WorkflowRun.

Definition EventTrigger_value (eventTrigger : EventTrigger) : string :=
  match eventTrigger with
  | EventTrigger_BranchProtectionRule => "branch_protection_rule"
  | EventTrigger_CheckRun => "check_run"
  | EventTrigger_CheckSuite => "check_suite"
  | EventTrigger_Create => "create"
  | EventTrigger_Delete => "delete"
  | EventTrigger_Deployment => "deployment"
  | EventTrigger_DeploymentStatus => "deployment_status"
  | EventTrigger_Discussion => "discussion"
  | EventTrigger_DiscussionComment => "discussion_comment"
  | EventTrigger_Fork => "fork"
  | EventTrigger_Gollum => "gollum"
  | EventTrigger_IssueComment => "issue_comment"
  | EventTrigger_Issues => "issues"
  | EventTrigger_Label => "label"
  | EventTrigger_MergeGroup => "merge_group"
  | EventTrigger_Milestone => "milestone"
  | EventTrigger_PageBuild => "page_build"
  | EventTrigger_Public => "public"
  | EventTrigger_PullRequest => "pull_request"
  | EventTrigger_PullRequestComment => "pull_request_comment"
  | EventTrigger_PullRequestReview => "pull_request_review"
  | EventTrigger_PullRequestReviewComment => "pull_request_review_comment"
  | EventTrigger_PullRequestTarget => "pull_request_target"
  | EventTrigger_Push => "push"
  | EventTrigger_RegistryPackage => "registry_package"
  | EventTrigger_Release => "release"
  | EventTrigger_RepositoryDispatch => "repository_dispatch"
  | EventTrigger_Schedule => "schedule"
  | EventTrigger_Status => "status"
  | EventTrigger_Watch => "watch"
  | EventTrigger_WorkflowCall => "workflow_call"
  | EventTrigger_WorkflowDispatch => "workflow_dispatch"
  | EventTrigger_WorkflowRun => "workflow_run"
  end.

Inductive Option := Option_Workflows | Option_Variable.

Definition Option_value (o : Option) : string :=
  match o with
  | Option_Workflows => "-W"
  | Option_Variable => "-var"
  end.

Definition base : string := "act".

(** The two tables of an [Act] object; its three managers are collaborators
    and answer through [Host]. *)
Record Act := {
  installationCommands : gmap string string;
  prebuiltExecutables : gmap string string
}.

Definition win32_installationCommands : list (string * string) :=
  [ ("Chocolatey", "choco install act-cli");
    ("Winget", "winget install nektos.act");
    ("Scoop", "scoop install act");
    ("GitHub CLI", "gh extension install https://github.com/nektos/gh-act") ].

Definition win32_prebuiltExecutables : list (string * string) :=
  [ ("Windows 64-bit (arm64/aarch64)", "https://github.com/nektos/act/releases/latest/download/act_Windows_arm64.zip");
    ("Windows 64-bit (amd64/x86_64)", "https://github.com/nektos/act/releases/latest/download/act_Windows_x86_64.zip");
    ("Windows 32-bit (armv7)", "https://github.com/nektos/act/releases/latest/download/act_Windows_armv7.zip");
    ("Windows 32-bit (i386/x86)", "https://github.com/nektos/act/releases/latest/download/act_Windows_i386.zip") ].

Definition darwin_installationCommands : list (string * string) :=
  [ ("Homebrew", "brew install act");
    ("Nix", "nix run nixpkgs#act");
    ("MacPorts", "sudo port install act");
    ("GitHub CLI", "gh extension install https://github.com/nektos/gh-act") ].

Definition darwin_prebuiltExecutables : list (string * string) :=
  [ ("macOS 64-bit (Apple Silicon)", "https://github.com/nektos/act/releases/latest/download/act_Darwin_arm64.tar.gz");
    ("macOS 64-bit (Intel)", "https://github.com/nektos/act/releases/latest/download/act_Darwin_x86_64.tar.gz") ].

Definition linux_installationCommands : list (string * string) :=
  [ ("Homebrew", "brew install act");
    ("Nix", "nix run nixpkgs#act");
    ("AUR", "yay -Syu act");
    ("COPR", "dnf copr enable goncalossilva/act && dnf install act-cli");
    ("GitHub CLI", "gh extension install https://github.com/nektos/gh-act") ].

Definition linux_prebuiltExecutables : list (string * string) :=
  [ ("Linux 64-bit (arm64/aarch64)", "https://github.com/nektos/act/releases/latest/download/act_Linux_arm64.tar.gz");
    ("Linux 64-bit (amd64/x86_64)", "https://github.com/nektos/act/releases/latest/download/act_Linux_x86_64.tar.gz");
    ("Linux 32-bit (armv7)", "https://github.com/nektos/act/releases/latest/download/act_Linux_armv7.tar.gz");
    ("Linux 32-bit (armv6)", "https://github.com/nektos/act/releases/latest/download/act_Linux_armv6.tar.gz");
    ("Linux 32-bit (i386/x86)", "https://github.com/nektos/act/releases/latest/download/act_Linux_i386.tar.gz") ].

(** [new Act()] on a host whose [process.platform] is [platform]: the
    [switch] assigns both tables in each of its four branches. *)
Definition constructor (platform : string) : Act :=
  if String.eqb platform "win32" then
    {| installationCommands := list_to_map win32_installationCommands;
       prebuiltExecutables := list_to_map win32_prebuiltExecutables |}
  else if String.eqb platform "darwin" then
    {| installationCommands := list_to_map darwin_installationCommands;
       prebuiltExecutables := list_to_map darwin_prebuiltExecutables |}
  else if String.eqb platform "linux" then
    {| installationCommands := list_to_map linux_installationCommands;
       prebuiltExecutables := list_to_map linux_prebuiltExecutables |}
  else
    {| installationCommands := ∅;
       prebuiltExecutables := ∅ |}.

Definition presentation (p : TaskPanelKind) : TaskPresentationOptions :=
  {| reveal := Reveal_Always;
     focus := false;
     clear := true;
     close := false;
     echo := true;
     panel := p;
     showReuseMessage := false |}.

(** The task object of [runCommand]; its scope is the workspace folder (an
    object, hence truthy in [workspaceFolder || TaskScope.Workspace]). *)
Definition run_task (workflow : Workflow) (workspaceFolder : WorkspaceFolder) : Task :=
  {| task_name := workflow_name workflow;
     detail := "Run workflow";
     definition_type := "GitHub Local Actions";
     source := "GitHub Local Actions";
     scope := TaskScope_Folder workspaceFolder;
     isBackground := true;
     presentationOptions := presentation Panel_Dedicated;
     problemMatchers := [];
     group := Group_Build;
     execution := CustomExecution |}.

(** The task object of [install]. *)
Definition install_task (command : JS.Value) : Task :=
  {| task_name := "nektos/act";
     detail := "Install nektos/act";
     definition_type := "GitHub Local Actions";
     source := "GitHub Local Actions";
     scope := TaskScope_Workspace;
     isBackground := true;
     presentationOptions := presentation Panel_Shared;
     problemMatchers := [];
     group := Group_Build;
     execution := ShellExecution command |}.

(** The listener on the child's standard output, from the text
    [data.toString()] of the chunk on (see [stdout_listener] below). *)
Definition on_stdout_data (data : string) : list Effect :=
  let output := JS.replaceAll JS.nl JS.crlf data in
  [writeEmitter_fire output].

(** The listener on the child's standard error, from the text
    [data.toString()] of the chunk on. *)
Definition on_stderr_data (data : string) : list Effect :=
  let error := data in
  [writeEmitter_fire error].

(** The listener on the child's [close] event. *)
Definition on_child_close (code : option Z) : list Effect :=
  [closeEmitter_fire (JS.or_number code 0)].

Definition listeners : ChildProcess :=
  {| stdout_on_data := on_stdout_data;
     stderr_on_data := on_stderr_data;
     on_close := on_child_close |}.

(** The eight writes that open the terminal. *)
Definition header (h : Host) (workflow : Workflow) (command : string) : list Effect :=
  [ writeEmitter_fire ("Workflow:    " +:+ workflow_name workflow +:+ JS.crlf);
    writeEmitter_fire ("Path:        " +:+ fsPath (workflow_uri workflow) +:+ JS.crlf);
    writeEmitter_fire ("Command:     " +:+ command +:+ JS.crlf);
    writeEmitter_fire ("Environments: OSSBUILD" +:+ JS.crlf);
    writeEmitter_fire ("Variables:   VARIABLE1=ABC, VARIABLE2=DEF" +:+ JS.crlf);
    writeEmitter_fire ("Secrets:     SECRET1=ABC, SECRET2=DEF" +:+ JS.crlf);
    writeEmitter_fire ("Timestamp:   " +:+ toLocaleTimeString h +:+ JS.crlf);
    writeEmitter_fire JS.crlf ].

(** The [open] method of the pseudoterminal. *)
Definition open (h : Host) (workflow : Workflow) (command : string)
    (workspaceFolder : WorkspaceFolder) : list Effect * ChildProcess :=
  (header h workflow command ++
   [spawn command (fsPath (folder_uri workspaceFolder)) (env_shell h)],
   listeners).

Definition pseudoterminal (h : Host) (workflow : Workflow) (command : string)
    (workspaceFolder : WorkspaceFolder) : Pseudoterminal :=
  {| pty_open := open h workflow command workspaceFolder;
     pty_close := [] |}.

(** The callback of the first error message's thenable. *)
Definition fix_onfulfilled (value : option string) : list Effect :=
  match value with
  | Some v => if String.eqb v "Fix..." then [executeCommand "components.focus"] else []
  | None => []
  end.

Definition unready_message (unready : list Component) : string :=
  "The following required components are not ready: " +:+
  JS.join ", " (map component_name unready).

Definition runCommand (h : Host) (workflow : Workflow) (command : string)
    : list Effect * Pending :=
  let unready := unreadyComponents h in
  if (0 <? length unready)%nat then
    ([getUnreadyComponents; showErrorMessage (unready_message unready) ["Fix..."]],
     Then fix_onfulfilled)
  else
    match workspaceFolderOf h (workflow_uri workflow) with
    | None =>
        ([getUnreadyComponents;
          getWorkspaceFolder (workflow_uri workflow);
          showErrorMessage "Failed to detect workspace folder" []],
         Returned)
    | Some workspaceFolder =>
        ([getUnreadyComponents;
          getWorkspaceFolder (workflow_uri workflow);
          executeTask (run_task workflow workspaceFolder)],
         Callback (pseudoterminal h workflow command workspaceFolder))
    end.

(** The command line [runWorkflow] assembles. *)
Definition workflow_command (workflow : Workflow) : string :=
  base +:+ " " +:+ Option_value Option_Workflows +:+ " " +:+ JS.dquote +:+
  ".github/workflows/" +:+ Path.parse_base (fsPath (workflow_uri workflow)) +:+
  JS.dquote.

Definition runWorkflow (h : Host) (workflow : Workflow) : list Effect * Pending :=
  runCommand h workflow (workflow_command workflow).

(** [installationCommands] is a plain object: the lookup also finds the
    names it inherits. *)
Definition install (this : Act) (packageManager : string) : list Effect :=
  match JS.get_property (installationCommands this) packageManager with
  | Some command =>
      if JS.truthy_value command then [executeTask (install_task command)] else []
  | None => []
  end.

(** The fields of [this] that the class assigns, and what is assigned: a new
    manager object or a table. *)
Inductive Field :=
| Field_componentsManager
| Field_workflowsManager
| Field_settingsManager
| Field_installationCommands
| Field_prebuiltExecutables.

Inductive Assigned :=
| Assigned_manager
| Assigned_table (table : gmap string string).

Definition is_installationCommands (f : Field) : bool :=
  match f with Field_installationCommands => true | _ => false end.

(** The assignments to [this] that [new Act()] executes, in order: the
    three managers, then the two tables in the branch of the [switch] that
    is taken. *)
Definition constructor_assignments (platform : string) : list (Field * Assigned) :=
  [ (Field_componentsManager, Assigned_manager);
    (Field_workflowsManager, Assigned_manager);
    (Field_settingsManager, Assigned_manager) ] ++
  (if String.eqb platform "win32" then
     [ (Field_installationCommands, Assigned_table (list_to_map win32_installationCommands));
       (Field_prebuiltExecutables, Assigned_table (list_to_map win32_prebuiltExecutables)) ]
   else if String.eqb platform "darwin" then
     [ (Field_installationCommands, Assigned_table (list_to_map darwin_installationCommands));
       (Field_prebuiltExecutables, Assigned_table (list_to_map darwin_prebuiltExecutables)) ]
   else if String.eqb platform "linux" then
     [ (Field_installationCommands, Assigned_table (list_to_map linux_installationCommands));
       (Field_prebuiltExecutables, Assigned_table (list_to_map linux_prebuiltExecutables)) ]
   else
     [ (Field_installationCommands, Assigned_table ∅);
       (Field_prebuiltExecutables, Assigned_table ∅) ]).

(** The methods of the class, and the assignments to [this] in their
    bodies: no method has one. *)
Inductive Method :=
| Method_runAllWorkflows
| Method_runEvent
| Method_runWorkflow
| Method_runCommand
| Method_install.

Definition method_assignments (m : Method) : list (Field * Assigned) :=
  match m with
  | Method_runAllWorkflows => []
  | Method_runEvent => []
  | Method_runWorkflow => []
  | Method_runCommand => []
  | Method_install => []
  end.

Section buffers.

(** [data.toString()] for a [Buffer]: the platform's decoding of its bytes
    as UTF-8 text. *)
Variable toString : list Byte.byte → string.

(** The listeners as the child's streams call them, with the bytes of a
    chunk. *)
Definition stdout_listener (data : list Byte.byte) : list Effect :=
  on_stdout_data (toString data).

Definition stderr_listener (data : list Byte.byte) : list Effect :=
  on_stderr_data (toString data).

End buffers.

(** [runAllWorkflows] has an empty body, and the body of [runEvent] is
    commented out: neither calls the host. *)
Definition runAllWorkflows (h : Host) : list Effect * Pending :=
  ([], Returned).

Definition runEvent (h : Host) (eventTrigger : EventTrigger) : list Effect * Pending :=
  ([], Returned).

End Act.

(** ** The namespace [ConfigurationManager] *)
Module ConfigurationManager.

Inductive Platform := windows | mac | linux.

Definition Platform_value (p : Platform) : string :=
  match p with
  | windows => "win32"
  | mac => "darwin"
  | linux => "linux"
  end.

Inductive Section_ := actCommand | dockerDesktopPath.

Definition Section_value (section : Section_) : string :=
  match section with
  | actCommand => "actCommand"
  | dockerDesktopPath => "dockerDesktopPath"
  end.

(** The settings of the group [githubLocalActions], by section name; a
    section without a value is absent. *)
Definition get (cfg : gmap string string) (section : Section_) : option string :=
  cfg !! Section_value section.

Definition set (cfg : gmap string string) (section : Section_) (value : string)
    : gmap string string :=
  <[Section_value section := value]> cfg.

Section initialize.

(** [Act.defaultActCommand], a constant of a version of [act.ts] other than
    the one at hand. *)
Variable defaultActCommand : string.

(** The first [if] of [initialize]: the settings and the [set] calls after
    it, or [None] when the [default] branch of the [switch] returns. *)
Definition initialize_docker (platform : string) (cfg : gmap string string)
    : option (gmap string string * list (Section_ * string)) :=
  if negb (JS.truthy (get cfg dockerDesktopPath)) then
    if String.eqb platform (Platform_value windows) then
      let value := "C:/Program Files/Docker/Docker/Docker Desktop.exe" in
      Some (set cfg dockerDesktopPath value, [(dockerDesktopPath, value)])
    else if String.eqb platform (Platform_value mac) then
      let value := "/Applications/Docker.app" in
      Some (set cfg dockerDesktopPath value, [(dockerDesktopPath, value)])
    else None
  else Some (cfg, []).

(** [initialize()] on [process.platform = platform]: the settings when it
    resolves and the [set] calls it has made, in order. *)
Definition initialize (platform : string) (cfg : gmap string string)
    : gmap string string * list (Section_ * string) :=
  match initialize_docker platform cfg with
  | None => (cfg, [])
  | Some (cfg1, sets) =>
      if negb (JS.truthy (get cfg1 actCommand))
      then (set cfg1 actCommand defaultActCommand,
            sets ++ [(actCommand, defaultActCommand)])
      else (cfg1, sets)
  end.

End initialize.

Definition group : string := "githubLocalActions".
Definition searchPrefix : string := "@ext:sanjulaganepola.github-local-actions".

Definition getSearchTerm (section : Section_) : string :=
  searchPrefix +:+ " " +:+ group +:+ "." +:+ Section_value section.

End ConfigurationManager.

(** ** The class [DecorationProvider] *)
Module DecorationProvider.
Import Vscode.

Record ThemeColor := { id : string }.
Record FileDecoration := { badge : string; color : ThemeColor }.

(** [params.get(name)]: the value of the first pair named [name]. *)
Fixpoint params_get (params : list (string * string)) (name : string) : option string :=
  match params with
  | (n, v) :: rest => if String.eqb n name then Some v else params_get rest name
  | [] => None
  end.

(** The three decorations; a badge is kept as the bytes of its literal. *)
Definition green : FileDecoration :=
  {| badge := "✅"; color := {| id := "GitHubLocalActions.green" |} |}.
Definition yellow : FileDecoration :=
  {| badge := "⚠️"; color := {| id := "GitHubLocalActions.yellow" |} |}.
Definition red : FileDecoration :=
  {| badge := "❌"; color := {| id := "GitHubLocalActions.red" |} |}.

Section provider.

(** [ComponentTreeItem.contextValue], [WorkflowTreeItem.contextValue] and the
    members of the string enum [Status] are declared in files other than the
    ones at hand; [URLSearchParams] is the platform's parser of a query
    string into its list of name-value pairs. *)
Variables ComponentTreeItem_contextValue WorkflowTreeItem_contextValue : string.
Variables Status_Enabled Status_Warning Status_Disabled : string.
Variable URLSearchParams : string → list (string * string).

Definition provideFileDecoration (uri : Uri) : option FileDecoration :=
  let params := URLSearchParams (query uri) in
  if String.eqb (scheme uri) ComponentTreeItem_contextValue then
    if JS.strict_eq (params_get params "status") Status_Enabled then Some green
    else if JS.strict_eq (params_get params "status") Status_Warning then Some yellow
    else if JS.strict_eq (params_get params "status") Status_Disabled then Some red
    else None
  else if String.eqb (scheme uri) WorkflowTreeItem_contextValue then
    if JS.truthy (params_get params "error") then Some red else None
  else None.

End provider.

(** A query parser for plain queries (no [+], no percent escape): an optional
    leading [?], pairs separated by [&], name and value separated by the
    first [=]. *)
Fixpoint split_on (sep : ascii) (s : string) : list string :=
  match s with
  | "" => [""]
  | String a s' =>
      if Ascii.eqb a sep then "" :: split_on sep s'
      else match split_on sep s' with
           | x :: xs => String a x :: xs
           | [] => [String a ""]
           end
  end.

Fixpoint cut_at (sep : ascii) (s : string) : string * string :=
  match s with
  | "" => ("", "")
  | String a s' =>
      if Ascii.eqb a sep then ("", s')
      else (String a (cut_at sep s').1, (cut_at sep s').2)
  end.

Definition plain_query_pairs (q : string) : list (string * string) :=
  let q' := match q with
            | String a rest => if Ascii.eqb a "?"%char then rest else q
            | "" => q
            end in
  map (cut_at "="%char) (filter (λ piece, piece ≠ "") (split_on "&"%char q')).

End DecorationProvider.

(** ** The line-ending rule as the specification words it *)
Module Spec.

(** A newline is bare when no carriage return stands before it; a bare
    newline becomes a carriage return and a newline, every other code unit is
    kept. [after_cr] tells whether the previous code unit was a carriage
    return. *)
Fixpoint bare_newlines_to_crlf_from (after_cr : bool) (s : string) : string :=
  match s with
  | "" => ""
  | String a s' =>
      if Ascii.eqb a JS.LF && negb after_cr
      then String JS.CR (String JS.LF (bare_newlines_to_crlf_from false s'))
      else String a (bare_newlines_to_crlf_from (Ascii.eqb a JS.CR) s')
  end.

Definition bare_newlines_to_crlf (s : string) : string :=
  bare_newlines_to_crlf_from false s.

(** The rule without the word bare: every newline becomes a carriage return
    and a newline, every other code unit is kept. *)
Fixpoint newlines_to_crlf (s : string) : string :=
  match s with
  | "" => ""
  | String a s' =>
      if Ascii.eqb a JS.LF
      then String JS.CR (String JS.LF (newlines_to_crlf s'))
      else String a (newlines_to_crlf s')
  end.

(** Whether some newline of [s] stands right after a carriage return. *)
Fixpoint has_crlf (s : string) : bool :=
  match s with
  | "" => false
  | String a s' =>
      match s' with
      | String b _ => (Ascii.eqb a JS.CR && Ascii.eqb b JS.LF) || has_crlf s'
      | "" => false
      end
  end.

(** Whether a newline occurs in [s], and how many do. *)
Fixpoint has_newline (s : string) : bool :=
  match s with
  | "" => false
  | String a s' => Ascii.eqb a JS.LF || has_newline s'
  end.

Fixpoint count_newlines (s : string) : nat :=
  match s with
  | "" => O
  | String a s' => ((if Ascii.eqb a JS.LF then 1 else 0) + count_newlines s')%nat
  end.

(** Whether some newline of [s] is bare; [after_cr] as above. *)
Fixpoint has_bare_newline_from (after_cr : bool) (s : string) : bool :=
  match s with
  | "" => false
  | String a s' =>
      (Ascii.eqb a JS.LF && negb after_cr)
      || has_bare_newline_from (Ascii.eqb a JS.CR) s'
  end.

Definition has_bare_newline (s : string) : bool :=
  has_bare_newline_from false s.

(** The reading of a terminal's text back into lines: the carriage return
    that stands right before a newline is dropped. *)
Fixpoint crlf_to_newlines (s : string) : string :=
  match s with
  | "" => ""
  | String a s' =>
      match s' with
      | String b _ =>
          if Ascii.eqb a JS.CR && Ascii.eqb b JS.LF
          then crlf_to_newlines s'
          else String a (crlf_to_newlines s')
      | "" => String a ""
      end
  end.

End Spec.

(** ** What an observer of a trace sees *)
Module Observe.
Import Vscode.

(** The text the terminal has received: the payloads of the write emitter,
    in order. *)
Fixpoint written (t : list Effect) : string :=
  match t with
  | writeEmitter_fire data :: t' => data +:+ written t'
  | _ :: t' => written t'
  | [] => ""
  end.

(** The values the close emitter has fired, in order. *)
Fixpoint closed (t : list Effect) : list Z :=
  match t with
  | closeEmitter_fire code :: t' => code :: closed t'
  | _ :: t' => closed t'
  | [] => []
  end.

(** How many effects of a trace satisfy [p]. *)
Definition count (p : Effect → bool) (t : list Effect) : nat :=
  length (List.filter p t).

Definition is_emitter (e : Effect) : bool :=
  match e with
  | writeEmitter_fire _ | closeEmitter_fire _ => true
  | _ => false
  end.

(** The text a child event adds to the terminal, and the exit value it
    reports. *)
Definition text_of (e : ChildEvent) : string :=
  match e with
  | stdout_data chunk => Spec.newlines_to_crlf chunk
  | stderr_data chunk => chunk
  | child_close _ => ""
  end.

Definition exits_of (e : ChildEvent) : list Z :=
  match e with
  | child_close (Some code) => [code]
  | child_close None => [0]
  | _ => []
  end.

End Observe.

(** ** Sample inputs *)
Module Sample.
Import Vscode.

Definition project : WorkspaceFolder :=
  {| folder_uri := {| scheme := "file"; fsPath := "/home/dev/project"; query := "" |};
     folder_name := "project" |}.

Definition ci_uri : Uri :=
  {| scheme := "file";
     fsPath := "/home/dev/project/.github/workflows/ci.yml";
     query := "" |}.

Definition ci : Act.Workflow :=
  {| Act.workflow_name := "ci"; Act.workflow_uri := ci_uri |}.

(** Every component is ready and the only project root is [project]. *)
Definition ready_host : Act.Host :=
  {| Act.unreadyComponents := [];
     Act.workspaceFolderOf := λ uri,
       if String.prefix "/home/dev/project/" (fsPath uri) then Some project else None;
     Act.env_shell := "/bin/bash";
     Act.toLocaleTimeString := "10:15:00 AM" |}.

(** The same host while two components are not ready. *)
Definition unready_host : Act.Host :=
  {| Act.unreadyComponents :=
       [ {| Act.component_name := "nektos/act" |};
         {| Act.component_name := "Docker Engine" |} ];
     Act.workspaceFolderOf := Act.workspaceFolderOf ready_host;
     Act.env_shell := "/bin/bash";
     Act.toLocaleTimeString := "10:15:00 AM" |}.

(** A workflow file outside every project root. *)
Definition stray : Act.Workflow :=
  {| Act.workflow_name := "stray";
     Act.workflow_uri :=
       {| scheme := "file"; fsPath := "/tmp/stray.yml"; query := "" |} |}.

(** The user presses [Fix...]; the child prints one line and exits. *)
Definition scenario : Scenario :=
  {| picked := Some "Fix...";
     child_events :=
       [ stdout_data ("done" +:+ JS.nl); child_close (Some 0) ] |}.

End Sample.

(** * Properties *)

Import Vscode.

(** ** The model on the sample inputs *)

Example parse_base_samples :
  Path.parse_base "/home/dev/project/.github/workflows/ci.yml" = "ci.yml"
  ∧ Path.parse_base "ci.yml" = "ci.yml"
  ∧ Path.parse_base "/a/b/" = "b"
  ∧ Path.parse_base "//a" = "a"
  ∧ Path.parse_base "/" = "".
Proof. repeat split. Qed.

Example replaceAll_samples :
  JS.replaceAll "ab" "X" "aabab_abb" = "aXX_Xb"
  ∧ JS.replaceAll "aa" "b" "aaa" = "ba"
  ∧ JS.replaceAll JS.nl JS.crlf ("a" +:+ JS.nl +:+ "b" +:+ JS.nl) =
      "a" +:+ JS.crlf +:+ "b" +:+ JS.crlf.
Proof. repeat split. Qed.

(** A whole successful run of [runWorkflow]. *)
Example run_ci_sample :
  run Sample.scenario (Act.runWorkflow Sample.ready_host Sample.ci) =
    [ getUnreadyComponents;
      getWorkspaceFolder Sample.ci_uri;
      executeTask (Act.run_task Sample.ci Sample.project);
      writeEmitter_fire ("Workflow:    ci" +:+ JS.crlf);
      writeEmitter_fire
        ("Path:        /home/dev/project/.github/workflows/ci.yml" +:+ JS.crlf);
      writeEmitter_fire
        ("Command:     act -W " +:+ JS.dquote +:+ ".github/workflows/ci.yml" +:+
         JS.dquote +:+ JS.crlf);
      writeEmitter_fire ("Environments: OSSBUILD" +:+ JS.crlf);
      writeEmitter_fire ("Variables:   VARIABLE1=ABC, VARIABLE2=DEF" +:+ JS.crlf);
      writeEmitter_fire ("Secrets:     SECRET1=ABC, SECRET2=DEF" +:+ JS.crlf);
      writeEmitter_fire ("Timestamp:   10:15:00 AM" +:+ JS.crlf);
      writeEmitter_fire JS.crlf;
      spawn ("act -W " +:+ JS.dquote +:+ ".github/workflows/ci.yml" +:+ JS.dquote)
        "/home/dev/project" "/bin/bash";
      writeEmitter_fire ("done" +:+ JS.crlf);
      closeEmitter_fire 0 ].
Proof. reflexivity. Qed.

Example install_samples :
  Act.install (Act.constructor "linux") "AUR" =
    [executeTask (Act.install_task (JS.Str "yay -Syu act"))]
  ∧ Act.install (Act.constructor "linux") "Scoop" = []
  ∧ Act.install (Act.constructor "win32") "Scoop" =
      [executeTask (Act.install_task (JS.Str "scoop install act"))]
  ∧ Act.install (Act.constructor "sunos") "Homebrew" = []
  ∧ Act.install (Act.constructor "sunos") "valueOf" =
      [executeTask (Act.install_task (JS.Inherited "valueOf"))].
Proof. repeat split. Qed.

(** On macOS [initialize] fills both sections of an empty configuration; on
    Linux it fills [actCommand] once the Docker Desktop path has a value. *)
Example initialize_samples :
  ConfigurationManager.initialize "act" "darwin" ∅ =
    (<["actCommand" := "act"]>
       (<["dockerDesktopPath" := "/Applications/Docker.app"]> ∅),
     [ (ConfigurationManager.dockerDesktopPath, "/Applications/Docker.app");
       (ConfigurationManager.actCommand, "act") ])
  ∧ ConfigurationManager.initialize "act" "linux"
      (<["dockerDesktopPath" := "/opt/docker"]> ∅) =
    (<["actCommand" := "act"]> (<["dockerDesktopPath" := "/opt/docker"]> ∅),
     [ (ConfigurationManager.actCommand, "act") ]).
Proof. split; by vm_compute. Qed.

Example plain_query_pairs_sample :
  DecorationProvider.plain_query_pairs "?status=Enabled&error=&flag" =
    [("status", "Enabled"); ("error", ""); ("flag", "")].
Proof. reflexivity. Qed.

(** ** Lists of effects *)

(** An element that satisfies [P] in a list where nothing before it and
    nothing after it does, is found at one place only. *)
Lemma split_at_unique {A} (P : A → bool) (l1 l2 pre post : list A) (x y : A) :
  Forall (λ e, P e = false) l1 →
  Forall (λ e, P e = false) l2 →
  P y = true →
  l1 ++ x :: l2 = pre ++ y :: post →
  pre = l1 ∧ y = x ∧ post = l2.
Proof.
  intros H1 H2 Hy. revert pre.
  induction H1 as [|a l1 Ha _ IH]; intros pre Heq; simpl in Heq.
  - destruct pre as [|b pre]; simplify_eq/=; [done|].
    exfalso. rewrite Forall_forall in H2.
    specialize (H2 y). rewrite H2 in Hy; [done|].
    apply elem_of_app; right; left.
  - destruct pre as [|b pre]; simpl in Heq; injection Heq as Hab Heq.
    + subst a. congruence.
    + subst b. destruct (IH _ Heq) as (-> & -> & ->). done.
Qed.

Lemma no_split_at {A} (P : A → bool) (l pre post : list A) (y : A) :
  Forall (λ e, P e = false) l →
  P y = true →
  l ≠ pre ++ y :: post.
Proof.
  intros Hl Hy ->. rewrite Forall_forall in Hl.
  specialize (Hl y). rewrite Hl in Hy; [done|].
  apply elem_of_app; right; left.
Qed.

(** The listeners of the child fire the two emitters and nothing else. *)
Lemma deliver_listeners_emitters (P : Effect → bool) (events : list ChildEvent) :
  (∀ data, P (writeEmitter_fire data) = false) →
  (∀ code, P (closeEmitter_fire code) = false) →
  Forall (λ e, P e = false) (flat_map (deliver Act.listeners) events).
Proof.
  intros Hw Hc. induction events as [|[chunk|chunk|code] events IH]; simpl;
    repeat constructor; auto.
Qed.

Lemma header_emitters (P : Effect → bool) h workflow command :
  (∀ data, P (writeEmitter_fire data) = false) →
  Forall (λ e, P e = false) (Act.header h workflow command).
Proof. intros Hw. unfold Act.header. repeat constructor; apply Hw. Qed.

Lemma length_pos_nonempty {A} (l : list A) : (0 <? length l)%nat = true ↔ l ≠ [].
Proof. destruct l; simpl; split; done. Qed.

Lemma runCommand_unready_eq h workflow command :
  Act.unreadyComponents h ≠ [] →
  Act.runCommand h workflow command =
    ([getUnreadyComponents;
      showErrorMessage (Act.unready_message (Act.unreadyComponents h)) ["Fix..."]],
     Then Act.fix_onfulfilled).
Proof.
  intros Hne. unfold Act.runCommand.
  apply length_pos_nonempty in Hne. by rewrite Hne.
Qed.

Lemma runCommand_ready_eq h workflow command :
  Act.unreadyComponents h = [] →
  Act.runCommand h workflow command =
    match Act.workspaceFolderOf h (Act.workflow_uri workflow) with
    | None =>
        ([getUnreadyComponents;
          getWorkspaceFolder (Act.workflow_uri workflow);
          showErrorMessage "Failed to detect workspace folder" []],
         Returned)
    | Some folder =>
        ([getUnreadyComponents;
          getWorkspaceFolder (Act.workflow_uri workflow);
          executeTask (Act.run_task workflow folder)],
         Callback (Act.pseudoterminal h workflow command folder))
    end.
Proof. intros Hnil. unfold Act.runCommand. by rewrite Hnil. Qed.

Lemma fix_onfulfilled_effects (P : Effect → bool) value :
  (∀ command, P (executeCommand command) = false) →
  Forall (λ e, P e = false) (Act.fix_onfulfilled value).
Proof.
  intros Hc. destruct value as [v|]; simpl; [|constructor].
  destruct (String.eqb v "Fix..."); repeat constructor; apply Hc.
Qed.

(** ** [Act.runCommand]: the readiness check *)

(** A run stopped by the readiness check registers no task and spawns no
    child. *)
Lemma run_unready_no_task h workflow command sc :
  Act.unreadyComponents h ≠ [] →
  Forall (λ e, is_spawn e = false ∧ is_executeTask e = false)
    (run sc (Act.runCommand h workflow command)).
Proof.
  intros Hne. rewrite (runCommand_unready_eq _ _ _ Hne). unfold run; simpl.
  repeat (constructor; [done|]).
  destruct (picked sc) as [v|]; simpl; [|constructor].
  destruct (String.eqb v "Fix..."); repeat constructor.
Qed.

(** C1. When the readiness check returns at least one unready component,
    [runCommand] asks for the unready components, shows one error message
    made of the fixed prefix and the components' names joined by a comma and
    a space, with the single item [Fix...], and returns; the item, once
    picked, executes the command [components.focus], any other answer does
    nothing. No task is registered and no child process is spawned, whatever
    the user and the host do next. *)
Theorem runCommand_unready_reports_names h workflow command sc :
  Act.unreadyComponents h ≠ [] →
  Act.runCommand h workflow command =
    ([getUnreadyComponents;
      showErrorMessage
        ("The following required components are not ready: " +:+
         JS.join ", " (Act.component_name <$> Act.unreadyComponents h))
        ["Fix..."]],
     Then Act.fix_onfulfilled)
  ∧ run sc (Act.runCommand h workflow command) =
      (Act.runCommand h workflow command).1 ++
      (if decide (picked sc = Some "Fix...")
       then [executeCommand "components.focus"] else [])
  ∧ Forall (λ e, is_spawn e = false ∧ is_executeTask e = false)
      (run sc (Act.runCommand h workflow command)).
Proof.
  intros Hne. split; [|split].
  - by rewrite (runCommand_unready_eq _ _ _ Hne).
  - rewrite (runCommand_unready_eq _ _ _ Hne). unfold run; simpl.
    do 2 f_equal. unfold Act.fix_onfulfilled.
    destruct (picked sc) as [v|].
    + destruct (String.eqb_spec v "Fix...") as [->|Hv].
      * by rewrite decide_True.
      * rewrite decide_False; [done|]. congruence.
    + by rewrite decide_False.
  - by apply run_unready_no_task.
Qed.

Lemma runCommand_unready_reports_names_witness :
  Act.runCommand Sample.unready_host Sample.ci "act" =
    ([getUnreadyComponents;
      showErrorMessage
        "The following required components are not ready: nektos/act, Docker Engine"
        ["Fix..."]],
     Then Act.fix_onfulfilled)
  ∧ run Sample.scenario (Act.runCommand Sample.unready_host Sample.ci "act") =
      [getUnreadyComponents;
       showErrorMessage
         "The following required components are not ready: nektos/act, Docker Engine"
         ["Fix..."];
       executeCommand "components.focus"]
  ∧ Forall (λ e, is_spawn e = false ∧ is_executeTask e = false)
      (run Sample.scenario (Act.runCommand Sample.unready_host Sample.ci "act")).
Proof.
  apply (runCommand_unready_reports_names Sample.unready_host Sample.ci "act"
           Sample.scenario).
  discriminate.
Defined.

(** ** [Act.runCommand]: the workspace check *)

(** C5. When the workflow's file lies in no workspace folder, [runCommand]
    shows an error message and returns: no task is registered and no child
    process is spawned, whatever happens next. When the readiness check has
    passed, the message is [Failed to detect workspace folder], without
    items, and nothing is left pending. *)
Theorem runCommand_outside_workspace h workflow command sc :
  Act.workspaceFolderOf h (Act.workflow_uri workflow) = None →
  Exists (λ e, is_showErrorMessage e = true) (Act.runCommand h workflow command).1
  ∧ Forall (λ e, is_spawn e = false ∧ is_executeTask e = false)
      (run sc (Act.runCommand h workflow command))
  ∧ (Act.unreadyComponents h = [] →
     Act.runCommand h workflow command =
       ([getUnreadyComponents;
         getWorkspaceFolder (Act.workflow_uri workflow);
         showErrorMessage "Failed to detect workspace folder" []],
        Returned)).
Proof.
  intros Hnone.
  destruct (decide (Act.unreadyComponents h = [])) as [Hnil|Hne].
  - rewrite (runCommand_ready_eq _ _ _ Hnil), Hnone. unfold run; simpl.
    split; [|split; [|done]].
    + do 2 apply Exists_cons_tl. by apply Exists_cons_hd.
    + repeat (constructor; [done|]). constructor.
  - split; [|split; [by apply run_unready_no_task|done]].
    rewrite (runCommand_unready_eq _ _ _ Hne); simpl.
    apply Exists_cons_tl. by apply Exists_cons_hd.
Qed.

Lemma runCommand_outside_workspace_witness :
  Exists (λ e, is_showErrorMessage e = true)
    (Act.runCommand Sample.ready_host Sample.stray "act").1
  ∧ Forall (λ e, is_spawn e = false ∧ is_executeTask e = false)
      (run Sample.scenario (Act.runCommand Sample.ready_host Sample.stray "act"))
  ∧ (Act.unreadyComponents Sample.ready_host = [] →
     Act.runCommand Sample.ready_host Sample.stray "act" =
       ([getUnreadyComponents;
         getWorkspaceFolder (Act.workflow_uri Sample.stray);
         showErrorMessage "Failed to detect workspace folder" []],
        Returned)).
Proof.
  apply (runCommand_outside_workspace Sample.ready_host Sample.stray "act"
           Sample.scenario).
  reflexivity.
Defined.

(** ** [Act.runCommand]: the order of the calls *)

(** The three shapes of a whole run. *)
Lemma run_runCommand_cases h workflow command sc :
  (Act.unreadyComponents h ≠ [] ∧
   run sc (Act.runCommand h workflow command) =
     [getUnreadyComponents;
      showErrorMessage (Act.unready_message (Act.unreadyComponents h)) ["Fix..."]]
     ++ Act.fix_onfulfilled (picked sc))
  ∨ (Act.unreadyComponents h = [] ∧
     Act.workspaceFolderOf h (Act.workflow_uri workflow) = None ∧
     run sc (Act.runCommand h workflow command) =
       [getUnreadyComponents;
        getWorkspaceFolder (Act.workflow_uri workflow);
        showErrorMessage "Failed to detect workspace folder" []])
  ∨ (∃ folder,
       Act.unreadyComponents h = [] ∧
       Act.workspaceFolderOf h (Act.workflow_uri workflow) = Some folder ∧
       run sc (Act.runCommand h workflow command) =
         ([getUnreadyComponents;
           getWorkspaceFolder (Act.workflow_uri workflow);
           executeTask (Act.run_task workflow folder)]
          ++ Act.header h workflow command)
         ++ spawn command (fsPath (folder_uri folder)) (Act.env_shell h)
         :: flat_map (deliver Act.listeners) (child_events sc)).
Proof.
  destruct (decide (Act.unreadyComponents h = [])) as [Hnil|Hne].
  - right. rewrite (runCommand_ready_eq _ _ _ Hnil).
    destruct (Act.workspaceFolderOf h (Act.workflow_uri workflow)) as [folder|].
    + right. exists folder. do 2 (split; [done|]).
      unfold run; simpl. reflexivity.
    + left. done.
  - left. split; [done|]. by rewrite (runCommand_unready_eq _ _ _ Hne).
Qed.

(** C6. In every run the readiness check is the first call; the workspace
    folder is looked up right after it and only when every component is
    ready; and a child process is spawned only after the readiness check has
    passed, the workspace folder has been found, the task has been
    registered and the eight lines of the header have been written, in this
    order. The child runs the command in the folder's directory with the
    shell of the environment, and it is the only one spawned. Each line of
    the header ends with a carriage return and a newline; the first three
    carry the workflow's name, its path and the command line. *)
Theorem runCommand_order h workflow command sc :
  (∃ rest, run sc (Act.runCommand h workflow command) = getUnreadyComponents :: rest)
  ∧ (∀ pre uri post,
       run sc (Act.runCommand h workflow command) = pre ++ getWorkspaceFolder uri :: post →
       pre = [getUnreadyComponents] ∧ uri = Act.workflow_uri workflow
       ∧ Act.unreadyComponents h = [])
  ∧ (∀ pre c cwd sh post,
       run sc (Act.runCommand h workflow command) = pre ++ spawn c cwd sh :: post →
       ∃ folder,
         Act.unreadyComponents h = []
         ∧ Act.workspaceFolderOf h (Act.workflow_uri workflow) = Some folder
         ∧ pre = [getUnreadyComponents;
                  getWorkspaceFolder (Act.workflow_uri workflow);
                  executeTask (Act.run_task workflow folder)]
                 ++ Act.header h workflow command
         ∧ c = command ∧ cwd = fsPath (folder_uri folder) ∧ sh = Act.env_shell h
         ∧ Forall (λ e, is_spawn e = false) post)
  ∧ Forall (λ e, ∃ line, e = writeEmitter_fire (line +:+ JS.crlf))
      (Act.header h workflow command)
  ∧ take 3 (Act.header h workflow command) =
      [writeEmitter_fire ("Workflow:    " +:+ Act.workflow_name workflow +:+ JS.crlf);
       writeEmitter_fire ("Path:        " +:+ fsPath (Act.workflow_uri workflow) +:+ JS.crlf);
       writeEmitter_fire ("Command:     " +:+ command +:+ JS.crlf)].
Proof.
  split; [|split; [|split; [|split]]].
  - destruct (run_runCommand_cases h workflow command sc)
      as [[_ ->]|[(_ & _ & ->)|(folder & _ & _ & ->)]]; simpl; eauto.
  - intros pre uri post Heq.
    destruct (run_runCommand_cases h workflow command sc)
      as [[_ Hrun]|[(Hnil & _ & Hrun)|(folder & Hnil & _ & Hrun)]];
      rewrite Hrun in Heq.
    + exfalso. revert Heq. apply (no_split_at is_getWorkspaceFolder); [|done].
      do 2 (constructor; [done|]). by apply fix_onfulfilled_effects.
    + apply (split_at_unique is_getWorkspaceFolder [getUnreadyComponents]
               [showErrorMessage "Failed to detect workspace folder" []])
        in Heq as (-> & Huri & _); [|repeat constructor..|done].
      by simplify_eq.
    + rewrite <- app_assoc in Heq.
      apply (split_at_unique is_getWorkspaceFolder [getUnreadyComponents])
        in Heq as (-> & Huri & _); [by simplify_eq|repeat constructor| |done].
      constructor; [done|]. apply Forall_app. split.
      * by apply header_emitters.
      * constructor; [done|]. by apply deliver_listeners_emitters.
  - intros pre c cwd sh post Heq.
    destruct (run_runCommand_cases h workflow command sc)
      as [[_ Hrun]|[(_ & _ & Hrun)|(folder & Hnil & Hsome & Hrun)]];
      rewrite Hrun in Heq.
    + exfalso. revert Heq. apply (no_split_at is_spawn); [|done].
      do 2 (constructor; [done|]). by apply fix_onfulfilled_effects.
    + exfalso. revert Heq. apply (no_split_at is_spawn); [|done].
      repeat constructor.
    + exists folder.
      apply (split_at_unique is_spawn) in Heq as (-> & Hspawn & ->); [| | |done].
      * simplify_eq. repeat (split; [done|]).
        by apply deliver_listeners_emitters.
      * apply Forall_app. split; [repeat constructor|by apply header_emitters].
      * by apply deliver_listeners_emitters.
  - unfold Act.header.
    apply Forall_cons_2;
      [by exists ("Workflow:    " +:+ Act.workflow_name workflow)|].
    apply Forall_cons_2;
      [by exists ("Path:        " +:+ fsPath (Act.workflow_uri workflow))|].
    apply Forall_cons_2; [by exists ("Command:     " +:+ command)|].
    do 2 (apply Forall_cons_2; [eexists; reflexivity|]).
    apply Forall_cons_2; [eexists; reflexivity|].
    apply Forall_cons_2;
      [by exists ("Timestamp:   " +:+ Act.toLocaleTimeString h)|].
    apply Forall_cons_2; [by exists ""|constructor].
  - done.
Qed.

Lemma runCommand_order_witness :
  ∃ folder,
    Act.unreadyComponents Sample.ready_host = []
    ∧ Act.workspaceFolderOf Sample.ready_host (Act.workflow_uri Sample.ci) = Some folder
    ∧ [getUnreadyComponents;
       getWorkspaceFolder (Act.workflow_uri Sample.ci);
       executeTask (Act.run_task Sample.ci Sample.project)]
      ++ Act.header Sample.ready_host Sample.ci (Act.workflow_command Sample.ci)
      = [getUnreadyComponents;
         getWorkspaceFolder (Act.workflow_uri Sample.ci);
         executeTask (Act.run_task Sample.ci folder)]
        ++ Act.header Sample.ready_host Sample.ci (Act.workflow_command Sample.ci)
    ∧ Act.workflow_command Sample.ci = Act.workflow_command Sample.ci
    ∧ "/home/dev/project" = fsPath (folder_uri folder)
    ∧ "/bin/bash" = Act.env_shell Sample.ready_host
    ∧ Forall (λ e, is_spawn e = false)
        [writeEmitter_fire ("done" +:+ JS.crlf); closeEmitter_fire 0].
Proof.
  apply (proj1 (proj2 (proj2
    (runCommand_order Sample.ready_host Sample.ci
       (Act.workflow_command Sample.ci) Sample.scenario)))).
  reflexivity.
Defined.

(** ** The child's exit code *)

(** C4. The listener on [close] of the child that [open] spawns fires the
    close emitter with the exit code [N] for every integer [N], and with [0]
    when the code is [null] or [undefined]. *)
Theorem close_fires_exit_code h workflow command folder :
  (∀ N : Z,
     deliver (Act.open h workflow command folder).2 (child_close (Some N)) =
       [closeEmitter_fire N])
  ∧ deliver (Act.open h workflow command folder).2 (child_close None) =
      [closeEmitter_fire 0].
Proof.
  split; [|done]. intros N. simpl. unfold Act.on_child_close, JS.or_number.
  destruct (Z.eqb_spec N 0) as [->|_]; done.
Qed.

(** ** Line endings of the forwarded output *)

Lemma prefix_empty s : String.prefix "" s = true.
Proof. by destruct s. Qed.

Lemma replaceAll_nl_crlf s :
  JS.replaceAll JS.nl JS.crlf s = Spec.newlines_to_crlf s.
Proof.
  unfold JS.replaceAll. induction s as [|a s IH]; [done|].
  cbn [JS.replaceAll_from Spec.newlines_to_crlf JS.nl String.prefix String.length].
  rewrite prefix_empty.
  destruct (Ascii.ascii_dec JS.LF a) as [<-|Hne].
  - change (1 - 1)%nat with O.
    rewrite IH. reflexivity.
  - rewrite IH. destruct (Ascii.eqb_spec a JS.LF) as [->|_]; done.
Qed.

Lemma bare_newlines_agree s : ∀ after_cr,
  Spec.has_crlf s = false →
  (after_cr = true → ∀ s', s ≠ String JS.LF s') →
  Spec.bare_newlines_to_crlf_from after_cr s = Spec.newlines_to_crlf s.
Proof.
  induction s as [|a s IH]; intros after_cr Hno Hfirst; [done|].
  cbn [Spec.bare_newlines_to_crlf_from Spec.newlines_to_crlf].
  assert (Spec.has_crlf s = false ∧
          (Ascii.eqb a JS.CR = true → ∀ s', s ≠ String JS.LF s')) as [Hs Hcr].
  { simpl in Hno. destruct s as [|b s]; [done|].
    apply orb_false_iff in Hno as [Hab Hs]. split; [done|].
    intros Ha s' [= -> ->]. rewrite Ha in Hab. done. }
  destruct (Ascii.eqb_spec a JS.LF) as [->|Hne]; simpl.
  - destruct after_cr; simpl.
    + by destruct (Hfirst eq_refl s).
    + f_equal. f_equal. by apply IH.
  - f_equal. by apply IH.
Qed.

Lemma bare_newlines_length_le s : ∀ after_cr,
  (String.length (Spec.bare_newlines_to_crlf_from after_cr s)
   ≤ String.length (Spec.newlines_to_crlf s))%nat.
Proof.
  induction s as [|a s IH]; intros after_cr; [done|].
  cbn [Spec.bare_newlines_to_crlf_from Spec.newlines_to_crlf].
  pose proof (IH (Ascii.eqb a JS.CR)) as IHa. specialize (IH false).
  destruct (Ascii.eqb a JS.LF), after_cr; simpl; lia.
Qed.

Lemma bare_newlines_length_lt s : ∀ after_cr,
  Spec.has_crlf s = true ∨ (after_cr = true ∧ ∃ s', s = String JS.LF s') →
  (String.length (Spec.bare_newlines_to_crlf_from after_cr s)
   < String.length (Spec.newlines_to_crlf s))%nat.
Proof.
  induction s as [|a s IH]; intros after_cr Hyp.
  { destruct Hyp as [?|(_ & s' & ?)]; done. }
  cbn [Spec.bare_newlines_to_crlf_from Spec.newlines_to_crlf].
  destruct (Ascii.eqb_spec a JS.LF) as [->|Hne]; simpl.
  - destruct after_cr; simpl.
    + pose proof (bare_newlines_length_le s false). lia.
    + destruct Hyp as [Hyp|(? & _)]; [|done].
      assert (Spec.has_crlf s = true) as Hs.
      { simpl in Hyp. destruct s as [|b s]; [done|]. done. }
      specialize (IH false (or_introl Hs)). lia.
  - destruct Hyp as [Hyp|(_ & s' & ?)]; [|congruence].
    assert (Spec.has_crlf s = true ∨
            (Ascii.eqb a JS.CR = true ∧ ∃ s', s = String JS.LF s')) as Hs.
    { simpl in Hyp. destruct s as [|b s]; [done|].
      apply orb_true_iff in Hyp as [Hab|Hs]; [|by left].
      apply andb_true_iff in Hab as [Ha Hb]. right. split; [done|].
      apply Ascii.eqb_eq in Hb as ->. by exists s. }
    specialize (IH _ Hs). lia.
Qed.

(** C3, as the code has it. For every chunk of the child's standard output,
    the text written to the terminal is the chunk with every newline, bare
    or already preceded by a carriage return, rewritten to a carriage return
    and a newline, every other code unit kept in place; it is the chunk with
    only its bare newlines rewritten exactly when no newline of the chunk is
    preceded by a carriage return. A chunk of standard error is written
    unmodified. *)
Theorem stdout_newlines_stderr_verbatim chunk :
  Act.on_stdout_data chunk = [writeEmitter_fire (Spec.newlines_to_crlf chunk)]
  ∧ (Act.on_stdout_data chunk = [writeEmitter_fire (Spec.bare_newlines_to_crlf chunk)]
     ↔ Spec.has_crlf chunk = false)
  ∧ Act.on_stderr_data chunk = [writeEmitter_fire chunk].
Proof.
  unfold Act.on_stdout_data, Act.on_stderr_data. rewrite replaceAll_nl_crlf.
  split; [done|]. split; [|done]. split.
  - intros [= Heq]. destruct (Spec.has_crlf chunk) eqn:Hcr; [|done].
    pose proof (bare_newlines_length_lt chunk false (or_introl Hcr)) as Hlt.
    unfold Spec.bare_newlines_to_crlf in Heq. rewrite <- Heq in Hlt. lia.
  - intros Hno. do 2 f_equal. symmetry. by apply bare_newlines_agree.
Qed.

(** C3, as stated, fails on a chunk that is a carriage return followed by a
    newline: the chunk has no bare newline, so rewriting the bare newlines
    leaves it as it is, and the code writes two carriage returns and a
    newline. *)
Lemma stdout_crlf_chunk_counterexample :
  Spec.bare_newlines_to_crlf JS.crlf = JS.crlf
  ∧ Act.on_stdout_data JS.crlf = [writeEmitter_fire (String JS.CR JS.crlf)]
  ∧ ¬ (∀ chunk,
         Act.on_stdout_data chunk =
           [writeEmitter_fire (Spec.bare_newlines_to_crlf chunk)]).
Proof.
  split; [done|]. split; [done|].
  intros Hall. specialize (Hall JS.crlf). discriminate Hall.
Qed.

(** ** [Act.runWorkflow]: the command line *)

Lemma string_app_assoc (s1 s2 s3 : string) :
  (s1 +:+ s2) +:+ s3 = s1 +:+ s2 +:+ s3.
Proof.
  induction s1 as [|a s1 IH]; [done|].
  change (String a ((s1 +:+ s2) +:+ s3) = String a (s1 +:+ s2 +:+ s3)).
  by rewrite IH.
Qed.

Lemma list_ascii_of_string_app s1 s2 :
  String.list_ascii_of_string (s1 +:+ s2) =
  String.list_ascii_of_string s1 ++ String.list_ascii_of_string s2.
Proof. induction s1 as [|a s1 IH]; simpl; [done|]. by rewrite IH. Qed.

Lemma has_slash_Forall s :
  Path.has_slash s = false →
  Forall (λ c, Path.is_slash c = false) (String.list_ascii_of_string s).
Proof.
  induction s as [|a s IH]; simpl; intros Hs; [constructor|].
  apply orb_false_iff in Hs as [Ha Hs]. constructor; auto.
Qed.

Lemma has_slash_app s1 s2 :
  Path.has_slash (s1 +:+ s2) = Path.has_slash s1 || Path.has_slash s2.
Proof.
  induction s1 as [|a s1 IH]; simpl; [done|]. by rewrite IH, orb_assoc.
Qed.

Lemma until_slash_app seg rest :
  Forall (λ c, Path.is_slash c = false) seg →
  Path.until_slash (seg ++ "/"%char :: rest) = seg.
Proof.
  induction 1 as [|c seg Hc _ IH]; simpl; [done|]. by rewrite Hc, IH.
Qed.

Lemma last_segment seg rest :
  seg ≠ [] →
  Forall (λ c, Path.is_slash c = false) seg →
  Path.until_slash (Path.drop_slashes (seg ++ "/"%char :: rest)) = seg.
Proof.
  intros Hne Hseg. destruct Hseg as [|c seg Hc Hseg]; [done|].
  cbn [app Path.drop_slashes]. rewrite Hc.
  apply (until_slash_app (c :: seg)). by constructor.
Qed.

Lemma rev_path dir file :
  rev (String.list_ascii_of_string (dir +:+ "/" +:+ file)) =
  rev (String.list_ascii_of_string file) ++
  "/"%char :: rev (String.list_ascii_of_string dir).
Proof.
  rewrite list_ascii_of_string_app, rev_app_distr.
  change (String.list_ascii_of_string ("/" +:+ file))
    with ("/"%char :: String.list_ascii_of_string file).
  cbn [rev]. by rewrite <- app_assoc.
Qed.

(** The base of a path that ends in a separator followed by a non-empty
    name without separators is that name. *)
Lemma parse_base_file dir file :
  file ≠ "" →
  Path.has_slash file = false →
  Path.parse_base (dir +:+ "/" +:+ file) = file.
Proof.
  intros Hne Hfile. unfold Path.parse_base.
  rewrite rev_path, last_segment.
  - by rewrite rev_involutive, String.string_of_list_ascii_of_string.
  - intros Hr. apply Hne.
    rewrite <- (String.string_of_list_ascii_of_string file).
    by rewrite <- (rev_involutive (String.list_ascii_of_string file)), Hr.
  - apply Forall_forall. intros c Hc.
    pose proof (has_slash_Forall _ Hfile) as Hall.
    rewrite Forall_forall in Hall. apply Hall.
    apply list_elem_of_In, in_rev. by apply list_elem_of_In.
Qed.

(** C2. For every workflow whose file is [W.yml] in some directory ([W] a
    file name, without separator), whatever its display name, [runWorkflow]
    runs [runCommand] with the command line made of the base token [act],
    the flag [-W] and, between double quotes, [.github/workflows/W.yml]. *)
Theorem runWorkflow_command_line h workflow dir W :
  Path.has_slash W = false →
  fsPath (Act.workflow_uri workflow) = dir +:+ "/" +:+ W +:+ ".yml" →
  Act.workflow_command workflow =
    "act -W " +:+ JS.dquote +:+ ".github/workflows/" +:+ W +:+ ".yml" +:+ JS.dquote
  ∧ Act.runWorkflow h workflow =
      Act.runCommand h workflow
        ("act -W " +:+ JS.dquote +:+ ".github/workflows/" +:+ W +:+ ".yml" +:+ JS.dquote).
Proof.
  intros HW Hpath.
  assert (Act.workflow_command workflow =
          "act -W " +:+ JS.dquote +:+ ".github/workflows/" +:+ W +:+ ".yml" +:+ JS.dquote)
    as Hcmd.
  { unfold Act.workflow_command. rewrite Hpath, parse_base_file.
    - rewrite string_app_assoc. reflexivity.
    - by destruct W.
    - by rewrite has_slash_app, HW. }
  split; [done|]. unfold Act.runWorkflow. by rewrite Hcmd.
Qed.

Lemma runWorkflow_command_line_witness :
  Act.workflow_command Sample.ci =
    "act -W " +:+ JS.dquote +:+ ".github/workflows/" +:+ "ci" +:+ ".yml" +:+ JS.dquote
  ∧ Act.runWorkflow Sample.ready_host Sample.ci =
      Act.runCommand Sample.ready_host Sample.ci
        ("act -W " +:+ JS.dquote +:+ ".github/workflows/" +:+ "ci" +:+ ".yml" +:+ JS.dquote).
Proof.
  apply (runWorkflow_command_line Sample.ready_host Sample.ci
           "/home/dev/project/.github/workflows" "ci");
    reflexivity.
Defined.

(** ** [Act.install] and the tables of the constructor *)

Lemma String_eqb_false (s1 s2 : string) : s1 ≠ s2 → String.eqb s1 s2 = false.
Proof. intros Hne. by apply String.eqb_neq. Qed.

(** Every command of the tables the constructor builds is truthy. *)
Lemma installationCommands_truthy platform packageManager command :
  Act.installationCommands (Act.constructor platform) !! packageManager = Some command →
  JS.truthy_string command = true.
Proof.
  unfold Act.constructor.
  destruct (String.eqb platform "win32");
    [|destruct (String.eqb platform "darwin");
      [|destruct (String.eqb platform "linux")]];
    cbn [Act.installationCommands]; intros Hlook.
  4: { by rewrite lookup_empty in Hlook. }
  all: apply elem_of_list_to_map_2 in Hlook.
  all: repeat (apply elem_of_cons in Hlook as [[= -> ->]|Hlook]; [done|]).
  all: by apply elem_of_nil in Hlook.
Qed.

(** [install] on an object of the constructor, by the place the name is
    found at: the table, [Object.prototype], or nowhere. *)
Lemma install_constructor platform packageManager :
  Act.install (Act.constructor platform) packageManager =
    match Act.installationCommands (Act.constructor platform) !! packageManager with
    | Some command => [executeTask (Act.install_task (JS.Str command))]
    | None =>
        if bool_decide (packageManager ∈ JS.Object_prototype)
        then [executeTask (Act.install_task (JS.Inherited packageManager))]
        else []
    end.
Proof.
  unfold Act.install, JS.get_property.
  destruct (Act.installationCommands (Act.constructor platform) !! packageManager)
    as [command|] eqn:Hlook.
  - cbn [JS.truthy_value]. by rewrite (installationCommands_truthy _ _ _ Hlook).
  - by destruct (bool_decide (packageManager ∈ JS.Object_prototype)).
Qed.

Lemma constructor_no_inherited_key platform name :
  name ∈ JS.Object_prototype →
  Act.installationCommands (Act.constructor platform) !! name = None.
Proof.
  intros Hin. unfold Act.constructor.
  destruct (String.eqb platform "win32");
    [|destruct (String.eqb platform "darwin");
      [|destruct (String.eqb platform "linux")]];
    cbn [Act.installationCommands]; [| | |apply lookup_empty].
  all: unfold JS.Object_prototype in Hin.
  all: repeat (apply elem_of_cons in Hin as [->|Hin]; [by vm_compute|]).
  all: by apply elem_of_nil in Hin.
Qed.

(** C7. The claim fails on a name the table inherits: on every platform
    [toString] is no key of the installation table, and yet [install] makes
    a call, which executes the install task with the inherited function as
    the command line of its shell execution. *)
Theorem install_inherited_name platform :
  Act.installationCommands (Act.constructor platform) !! "toString" = None
  ∧ Act.install (Act.constructor platform) "toString" =
      [executeTask (Act.install_task (JS.Inherited "toString"))]
  ∧ execution (Act.install_task (JS.Inherited "toString")) =
      ShellExecution (JS.Inherited "toString").
Proof.
  assert (Act.installationCommands (Act.constructor platform) !! "toString" = None)
    as Hnone.
  { apply constructor_no_inherited_key. apply (bool_decide_unpack _). by vm_compute. }
  split; [done|]. split; [|done].
  by rewrite install_constructor, Hnone.
Qed.

(** C8. For every platform and whatever methods are called afterwards, the
    field [installationCommands] is assigned once, by the constructor, and
    the table assigned is the one the object holds. That table is fixed by
    the platform: four commands on [win32], four on [darwin], five on
    [linux], each under the display name of its package manager, and no
    entry at all on any other platform. *)
Theorem constructor_installation_table platform (calls : list Act.Method) :
  length (List.filter (λ a, Act.is_installationCommands a.1)
            (Act.constructor_assignments platform
             ++ flat_map Act.method_assignments calls)) = 1%nat
  ∧ (Act.Field_installationCommands,
     Act.Assigned_table (Act.installationCommands (Act.constructor platform)))
    ∈ Act.constructor_assignments platform
  ∧ Act.installationCommands (Act.constructor platform) =
      (if decide (platform = "win32") then
         list_to_map
           [ ("Chocolatey", "choco install act-cli");
             ("Winget", "winget install nektos.act");
             ("Scoop", "scoop install act");
             ("GitHub CLI", "gh extension install https://github.com/nektos/gh-act") ]
       else if decide (platform = "darwin") then
         list_to_map
           [ ("Homebrew", "brew install act");
             ("Nix", "nix run nixpkgs#act");
             ("MacPorts", "sudo port install act");
             ("GitHub CLI", "gh extension install https://github.com/nektos/gh-act") ]
       else if decide (platform = "linux") then
         list_to_map
           [ ("Homebrew", "brew install act");
             ("Nix", "nix run nixpkgs#act");
             ("AUR", "yay -Syu act");
             ("COPR", "dnf copr enable goncalossilva/act && dnf install act-cli");
             ("GitHub CLI", "gh extension install https://github.com/nektos/gh-act") ]
       else ∅)
  ∧ size (Act.installationCommands (Act.constructor platform)) =
      (if decide (platform = "win32") then 4
       else if decide (platform = "darwin") then 4
       else if decide (platform = "linux") then 5
       else 0)%nat.
Proof.
  assert (flat_map Act.method_assignments calls = []) as ->.
  { induction calls as [|m calls IH]; [done|]. by destruct m. }
  rewrite app_nil_r.
  unfold Act.constructor_assignments, Act.constructor.
  destruct (String.eqb_spec platform "win32") as [->|Hw].
  { split; [done|]. split; [set_solver|]. split; [done|]. by vm_compute. }
  rewrite !(decide_False (P := platform = "win32")) by done.
  destruct (String.eqb_spec platform "darwin") as [->|Hd].
  { split; [done|]. split; [set_solver|]. split; [done|]. by vm_compute. }
  rewrite !(decide_False (P := platform = "darwin")) by done.
  destruct (String.eqb_spec platform "linux") as [->|Hl].
  { split; [done|]. split; [set_solver|]. split; [done|]. by vm_compute. }
  rewrite !(decide_False (P := platform = "linux")) by done.
  split; [done|]. split; [set_solver|]. split; [done|]. apply map_size_empty.
Qed.

(** ** [ConfigurationManager.initialize] *)

(** On a platform other than Windows and macOS, a falsy Docker Desktop path
    (no value, or the empty string) makes [initialize] return from the
    [default] branch of the [switch]. *)
Lemma initialize_default_branch defaultActCommand platform cfg :
  platform ≠ "win32" → platform ≠ "darwin" →
  JS.truthy (ConfigurationManager.get cfg ConfigurationManager.dockerDesktopPath) = false →
  ConfigurationManager.initialize defaultActCommand platform cfg = (cfg, []).
Proof.
  intros Hw Hd Hfalsy.
  unfold ConfigurationManager.initialize, ConfigurationManager.initialize_docker.
  rewrite Hfalsy. cbn [negb ConfigurationManager.Platform_value].
  by rewrite !String_eqb_false.
Qed.

(** C9. On every platform other than Windows and macOS, when the Docker
    Desktop path has no value, [initialize] makes no [set] call and leaves
    the settings as they are; the [actCommand] section keeps the value it
    had, so it stays without a value when it had none. *)
Theorem initialize_elsewhere_writes_nothing defaultActCommand platform cfg :
  platform ≠ ConfigurationManager.Platform_value ConfigurationManager.windows →
  platform ≠ ConfigurationManager.Platform_value ConfigurationManager.mac →
  ConfigurationManager.get cfg ConfigurationManager.dockerDesktopPath = None →
  ConfigurationManager.initialize defaultActCommand platform cfg = (cfg, [])
  ∧ ConfigurationManager.get
      (ConfigurationManager.initialize defaultActCommand platform cfg).1
      ConfigurationManager.actCommand
    = ConfigurationManager.get cfg ConfigurationManager.actCommand.
Proof.
  intros Hw Hd Hnone.
  rewrite (initialize_default_branch defaultActCommand platform cfg Hw Hd).
  - done.
  - by rewrite Hnone.
Qed.

Lemma initialize_elsewhere_writes_nothing_witness :
  ConfigurationManager.initialize "act" "linux" ∅ = (∅, [])
  ∧ ConfigurationManager.get
      (ConfigurationManager.initialize "act" "linux" ∅).1
      ConfigurationManager.actCommand
    = ConfigurationManager.get ∅ ConfigurationManager.actCommand.
Proof.
  apply (initialize_elsewhere_writes_nothing "act" "linux" ∅);
    [discriminate|discriminate|reflexivity].
Defined.

(** ** [DecorationProvider.provideFileDecoration] *)

Section decoration.

Variables component workflow : string.
Variables enabled warning disabled : string.
Variable parse : string → list (string * string).

Hypothesis schemes_differ : component ≠ workflow.
Hypothesis statuses_differ : NoDup [enabled; warning; disabled].

Lemma strict_eq_Some v s : JS.strict_eq v s = true ↔ v = Some s.
Proof.
  destruct v as [x|]; simpl; [|done].
  rewrite String.eqb_eq. split; [by intros ->|by intros [= ->]].
Qed.

Lemma strict_eq_ne v s : v ≠ Some s → JS.strict_eq v s = false.
Proof.
  intros Hne. destruct (JS.strict_eq v s) eqn:Heq; [|done].
  by apply strict_eq_Some in Heq.
Qed.

Lemma truthy_nonempty v : JS.truthy v = true ↔ ∃ s, v = Some s ∧ s ≠ "".
Proof.
  destruct v as [[|a s]|]; simpl; split; try done.
  - intros (s & [= <-] & Hne). done.
  - intros _. by exists (String a s).
  - intros (s & ? & _). done.
Qed.

(** C10. For every URI, given that the two context values differ and that
    the three members of [Status] differ: on the components' scheme the
    decoration is the green one when the [status] parameter is [Enabled],
    the yellow one when it is [Warning], the red one when it is [Disabled],
    and there is none for any other value or without the parameter; on the
    workflows' scheme the decoration is the red one exactly when the [error]
    parameter has a non-empty value, and there is none otherwise (so none
    for an empty value); on any other scheme there is none. *)
Theorem provideFileDecoration_cases uri :
  let status := DecorationProvider.params_get (parse (query uri)) "status" in
  let error := DecorationProvider.params_get (parse (query uri)) "error" in
  let decoration :=
    DecorationProvider.provideFileDecoration
      component workflow enabled warning disabled parse uri in
  (scheme uri = component →
     (status = Some enabled → decoration = Some DecorationProvider.green)
     ∧ (status = Some warning → decoration = Some DecorationProvider.yellow)
     ∧ (status = Some disabled → decoration = Some DecorationProvider.red)
     ∧ (status ≠ Some enabled → status ≠ Some warning → status ≠ Some disabled →
        decoration = None))
  ∧ (scheme uri = workflow →
       (decoration = Some DecorationProvider.red
        ↔ ∃ value, error = Some value ∧ value ≠ "")
       ∧ (decoration = Some DecorationProvider.red ∨ decoration = None)
       ∧ (error = Some "" → decoration = None))
  ∧ (scheme uri ≠ component → scheme uri ≠ workflow → decoration = None).
Proof.
  intros status error decoration. subst decoration.
  unfold DecorationProvider.provideFileDecoration. fold status. fold error.
  apply NoDup_cons in statuses_differ as [Hew Hwd].
  apply NoDup_cons in Hwd as [Hwd _].
  assert (enabled ≠ warning ∧ enabled ≠ disabled ∧ warning ≠ disabled)
    as (Hne1 & Hne2 & Hne3) by set_solver.
  split; [|split].
  - intros ->. rewrite String.eqb_refl. repeat split.
    + intros ->. by rewrite (proj2 (strict_eq_Some _ _)).
    + intros ->. rewrite strict_eq_ne by congruence.
      by rewrite (proj2 (strict_eq_Some _ _)).
    + intros ->. rewrite !strict_eq_ne by congruence.
      by rewrite (proj2 (strict_eq_Some _ _)).
    + intros H1 H2 H3. by rewrite !strict_eq_ne.
  - intros Hs. rewrite Hs, String_eqb_false, String.eqb_refl by done.
    destruct (JS.truthy error) eqn:Htruthy.
    + split; [|split].
      * split; [by intros _; apply truthy_nonempty|done].
      * by left.
      * intros Herr. rewrite Herr in Htruthy. done.
    + split; [|split].
      * split; [done|]. intros Hex. apply truthy_nonempty in Hex. congruence.
      * by right.
      * done.
  - intros Hc Hw. by rewrite !String_eqb_false.
Qed.

End decoration.

Lemma provideFileDecoration_cases_witness :
  DecorationProvider.provideFileDecoration
    "githubLocalActions.component" "githubLocalActions.workflow"
    "Enabled" "Warning" "Disabled" DecorationProvider.plain_query_pairs
    {| scheme := "githubLocalActions.component"; fsPath := "/act";
       query := "status=Warning" |}
  = Some DecorationProvider.yellow.
Proof.
  apply (provideFileDecoration_cases
           "githubLocalActions.component" "githubLocalActions.workflow"
           "Enabled" "Warning" "Disabled" DecorationProvider.plain_query_pairs);
    [discriminate
    |apply (bool_decide_unpack _); by vm_compute
    |reflexivity
    |reflexivity].
Defined.

(** * Further properties of the code *)

(** ** The listener on standard output *)

Lemma string_app_empty_r (s : string) : s +:+ "" = s.
Proof.
  induction s as [|a s IH]; [done|].
  change (String a (s +:+ "") = String a s). by rewrite IH.
Qed.

Lemma written_on_stdout_data chunk :
  Observe.written (Act.on_stdout_data chunk) = Spec.newlines_to_crlf chunk.
Proof.
  unfold Act.on_stdout_data. rewrite replaceAll_nl_crlf.
  cbn [Observe.written]. apply string_app_empty_r.
Qed.

Lemma newlines_to_crlf_app s1 s2 :
  Spec.newlines_to_crlf (s1 +:+ s2) =
  Spec.newlines_to_crlf s1 +:+ Spec.newlines_to_crlf s2.
Proof.
  induction s1 as [|a s1 IH]; [done|].
  change (String a s1 +:+ s2) with (String a (s1 +:+ s2)).
  cbn [Spec.newlines_to_crlf]. rewrite IH.
  by destruct (Ascii.eqb a JS.LF).
Qed.

Lemma newlines_to_crlf_length s :
  String.length (Spec.newlines_to_crlf s) =
  (String.length s + Spec.count_newlines s)%nat.
Proof.
  induction s as [|a s IH]; [done|].
  cbn [Spec.newlines_to_crlf Spec.count_newlines].
  destruct (Ascii.eqb a JS.LF); simpl; lia.
Qed.

Lemma count_newlines_zero s :
  Spec.count_newlines s = O ↔ Spec.has_newline s = false.
Proof.
  induction s as [|a s IH]; [done|]. simpl.
  destruct (Ascii.eqb a JS.LF); simpl; [done|]. apply IH.
Qed.

Lemma newlines_to_crlf_id s :
  Spec.has_newline s = false → Spec.newlines_to_crlf s = s.
Proof.
  induction s as [|a s IH]; [done|]. simpl.
  destruct (Ascii.eqb a JS.LF); simpl; [done|]. intros Hs. by rewrite IH.
Qed.

Lemma newlines_to_crlf_head s t : Spec.newlines_to_crlf s ≠ String JS.LF t.
Proof.
  destruct s as [|a s]; [done|]. simpl.
  destruct (Ascii.eqb_spec a JS.LF) as [->|Hne]; [done|]. congruence.
Qed.

Lemma crlf_to_newlines_keep a t :
  Ascii.eqb a JS.CR = false ∨ (∀ t', t ≠ String JS.LF t') →
  Spec.crlf_to_newlines (String a t) = String a (Spec.crlf_to_newlines t).
Proof.
  intros Hyp. destruct t as [|b t]; [done|].
  cbn [Spec.crlf_to_newlines].
  destruct (Ascii.eqb a JS.CR) eqn:Ha; [|done].
  destruct (Ascii.eqb_spec b JS.LF) as [->|Hb]; [|done].
  destruct Hyp as [?|Hyp]; [done|]. by destruct (Hyp t).
Qed.

Lemma crlf_to_newlines_newlines s :
  Spec.crlf_to_newlines (Spec.newlines_to_crlf s) = s.
Proof.
  induction s as [|a s IH]; [done|]. cbn [Spec.newlines_to_crlf].
  destruct (Ascii.eqb_spec a JS.LF) as [->|Hne].
  - change (Spec.crlf_to_newlines
              (String JS.CR (String JS.LF (Spec.newlines_to_crlf s))))
      with (Spec.crlf_to_newlines (String JS.LF (Spec.newlines_to_crlf s))).
    rewrite crlf_to_newlines_keep by (by left). by rewrite IH.
  - rewrite crlf_to_newlines_keep; [by rewrite IH|].
    right. intros t'. apply newlines_to_crlf_head.
Qed.

Lemma newlines_no_bare s : ∀ after_cr,
  Spec.has_bare_newline_from after_cr (Spec.newlines_to_crlf s) = false.
Proof.
  induction s as [|a s IH]; intros after_cr; [done|].
  cbn [Spec.newlines_to_crlf].
  destruct (Ascii.eqb_spec a JS.LF) as [->|Hne].
  - cbn. apply IH.
  - cbn [Spec.has_bare_newline_from]. rewrite IH.
    destruct (Ascii.eqb_spec a JS.LF); [done|]. done.
Qed.

(** X1. Cutting the bytes of standard output into two chunks changes what
    the terminal receives exactly when it changes the decoded text: the text
    written for two chunks in a row equals the text written for their bytes
    in one chunk if and only if decoding the joined bytes gives the two
    decoded texts joined. The rewriting of newlines adds no dependence on
    the cut. *)
Theorem stdout_chunking_irrelevant toString data1 data2 :
  Observe.written
    (Act.stdout_listener toString data1 ++ Act.stdout_listener toString data2) =
  Observe.written (Act.stdout_listener toString (data1 ++ data2))
  ↔ toString (data1 ++ data2) = toString data1 +:+ toString data2.
Proof.
  unfold Act.stdout_listener, Act.on_stdout_data.
  rewrite !replaceAll_nl_crlf. cbn [app Observe.written].
  rewrite !string_app_empty_r, <- newlines_to_crlf_app.
  split.
  - intros Heq.
    rewrite <- (crlf_to_newlines_newlines (toString (data1 ++ data2))).
    by rewrite <- Heq, crlf_to_newlines_newlines.
  - by intros ->.
Qed.

(** X2. The text written for a chunk of standard output has no bare
    newline: each of its newlines stands right after a carriage return. *)
Theorem stdout_text_has_no_bare_newline chunk :
  Spec.has_bare_newline (Observe.written (Act.on_stdout_data chunk)) = false.
Proof. rewrite written_on_stdout_data. apply newlines_no_bare. Qed.

(** X3. The rewriting of newlines loses nothing of the decoded text:
    dropping the carriage return before each newline of the written text
    gives the decoded chunk back, so two chunks are written as the same text
    exactly when they decode to the same text. *)
Theorem stdout_text_reads_back toString data :
  Spec.crlf_to_newlines (Observe.written (Act.stdout_listener toString data))
  = toString data
  ∧ ∀ data',
      Act.stdout_listener toString data = Act.stdout_listener toString data'
      ↔ toString data = toString data'.
Proof.
  unfold Act.stdout_listener. split.
  - rewrite written_on_stdout_data. apply crlf_to_newlines_newlines.
  - intros data'. split; [|by intros ->].
    intros Heq.
    rewrite <- (crlf_to_newlines_newlines (toString data)),
            <- (crlf_to_newlines_newlines (toString data')).
    by rewrite <- !written_on_stdout_data, Heq.
Qed.

(** X4. The listeners on standard output and on standard error treat a chunk
    alike exactly when the chunk has no newline. *)
Theorem stdout_like_stderr_iff_no_newline chunk :
  Act.on_stdout_data chunk = Act.on_stderr_data chunk
  ↔ Spec.has_newline chunk = false.
Proof.
  unfold Act.on_stdout_data, Act.on_stderr_data. rewrite replaceAll_nl_crlf.
  split.
  - intros [= Heq]. apply count_newlines_zero.
    pose proof (newlines_to_crlf_length chunk) as Hlen.
    rewrite Heq in Hlen. lia.
  - intros Hno. by rewrite newlines_to_crlf_id.
Qed.

(** X5. The text written for a chunk of standard output is longer than the
    chunk by one code unit for each newline of the chunk. *)
Theorem stdout_text_length chunk :
  String.length (Observe.written (Act.on_stdout_data chunk)) =
  (String.length chunk + Spec.count_newlines chunk)%nat.
Proof. rewrite written_on_stdout_data. apply newlines_to_crlf_length. Qed.

(** ** The listener on [close] *)

(** X6. The close emitter fires [0] exactly when the child reports no exit
    code or the exit code [0]: a child ended by a signal is reported like a
    child that succeeded. In every other case the value fired is the exit
    code, which is not [0]. *)
Theorem close_zero_iff code :
  (Act.on_child_close code = [closeEmitter_fire 0]
   ↔ code = None ∨ code = Some 0)
  ∧ Act.on_child_close None = Act.on_child_close (Some 0).
Proof.
  split; [|done]. unfold Act.on_child_close, JS.or_number. split.
  - destruct code as [n|]; [|by left].
    destruct (Z.eqb_spec n 0) as [->|Hn]; [by right|].
    intros [= ->]. done.
  - intros [->| ->]; done.
Qed.

(** ** Whole runs of [runCommand] *)

Lemma count_app p (t1 t2 : list Effect) :
  Observe.count p (t1 ++ t2) = (Observe.count p t1 + Observe.count p t2)%nat.
Proof. unfold Observe.count. by rewrite List.filter_app, length_app. Qed.

Lemma count_none p (t : list Effect) :
  Forall (λ e, p e = false) t → Observe.count p t = O.
Proof.
  unfold Observe.count. induction 1 as [|e t He _ IH]; [done|].
  simpl. by rewrite He.
Qed.

Lemma written_app (t1 t2 : list Effect) :
  Observe.written (t1 ++ t2) = Observe.written t1 +:+ Observe.written t2.
Proof.
  induction t1 as [|e t1 IH]; [done|].
  destruct e; cbn [app Observe.written]; try done.
  by rewrite IH, string_app_assoc.
Qed.

Lemma closed_app (t1 t2 : list Effect) :
  Observe.closed (t1 ++ t2) = Observe.closed t1 ++ Observe.closed t2.
Proof.
  induction t1 as [|e t1 IH]; [done|].
  destruct e; cbn [app Observe.closed]; try done. by rewrite IH.
Qed.

Lemma written_listeners (events : list ChildEvent) :
  Observe.written (flat_map (deliver Act.listeners) events) =
  foldr (λ e text, Observe.text_of e +:+ text) "" events.
Proof.
  induction events as [|e events IH]; [done|].
  cbn [flat_map foldr]. rewrite written_app, IH. f_equal.
  destruct e as [chunk|chunk|code]; cbn [deliver Act.listeners stdout_on_data
    stderr_on_data on_close Observe.text_of].
  - apply written_on_stdout_data.
  - cbn. apply string_app_empty_r.
  - done.
Qed.

Lemma closed_listeners (events : list ChildEvent) :
  Observe.closed (flat_map (deliver Act.listeners) events) =
  flat_map Observe.exits_of events.
Proof.
  induction events as [|e events IH]; [done|].
  cbn [flat_map]. rewrite closed_app, IH. f_equal.
  destruct e as [chunk|chunk|[code|]]; try done.
  cbn. unfold JS.or_number. by destruct (Z.eqb_spec code 0) as [->|_].
Qed.

Lemma closed_header h workflow command :
  Observe.closed (Act.header h workflow command) = [].
Proof. done. Qed.

(** X7. Every run of [runCommand] has one outcome: either one error message
    is shown and no task is registered, or one task is registered and no
    error message is shown. A child process is spawned once for a registered
    task and never otherwise, and the task is registered exactly when no
    component is unready and the workflow's file lies in a workspace
    folder. *)
Theorem runCommand_one_outcome h workflow command sc :
  let t := run sc (Act.runCommand h workflow command) in
  (Observe.count is_showErrorMessage t + Observe.count is_executeTask t = 1)%nat
  ∧ Observe.count is_spawn t = Observe.count is_executeTask t
  ∧ (Observe.count is_executeTask t = 1%nat
     ↔ Act.unreadyComponents h = []
       ∧ is_Some (Act.workspaceFolderOf h (Act.workflow_uri workflow))).
Proof.
  intros t. subst t.
  destruct (run_runCommand_cases h workflow command sc)
    as [[Hne ->]|[(Hnil & Hnone & ->)|(folder & Hnil & Hsome & ->)]].
  - rewrite !count_app.
    rewrite !(count_none _ (Act.fix_onfulfilled _))
      by (by apply fix_onfulfilled_effects).
    cbn. split; [done|]. split; [done|]. split; [done|]. by intros [? _].
  - cbn. split; [done|]. split; [done|]. split; [done|].
    intros [_ [folder Hsome]]. congruence.
  - rewrite !count_app. cbn [Observe.count List.filter length is_spawn
      is_executeTask is_showErrorMessage app Nat.add].
    fold (Observe.count is_showErrorMessage (Act.header h workflow command)).
    fold (Observe.count is_executeTask (Act.header h workflow command)).
    fold (Observe.count is_spawn (Act.header h workflow command)).
    fold (Observe.count is_showErrorMessage
            (flat_map (deliver Act.listeners) (child_events sc))).
    fold (Observe.count is_executeTask
            (flat_map (deliver Act.listeners) (child_events sc))).
    fold (Observe.count is_spawn
            (flat_map (deliver Act.listeners) (child_events sc))).
    rewrite !(count_none _ (Act.header _ _ _)) by (by apply header_emitters).
    rewrite !(count_none _ (flat_map _ _))
      by (by apply deliver_listeners_emitters).
    split; [done|]. split; [done|]. split; [|done].
    intros _. split; [done|]. by exists folder.
Qed.

(** X8. A run that the readiness check or the workspace check stops never
    fires the terminal's emitters, and what the child would have done plays
    no part in it. *)
Theorem aborted_run_has_no_terminal h workflow command sc :
  Act.unreadyComponents h ≠ []
  ∨ Act.workspaceFolderOf h (Act.workflow_uri workflow) = None →
  Observe.count Observe.is_emitter (run sc (Act.runCommand h workflow command)) = O
  ∧ run sc (Act.runCommand h workflow command) =
    run {| picked := picked sc; child_events := [] |}
      (Act.runCommand h workflow command).
Proof.
  intros Hyp.
  destruct (decide (Act.unreadyComponents h = [])) as [Hnil|Hne].
  - destruct Hyp as [?|Hnone]; [done|].
    rewrite (runCommand_ready_eq _ _ _ Hnil), Hnone. done.
  - rewrite (runCommand_unready_eq _ _ _ Hne). unfold run; cbn [fst snd picked].
    split; [|done]. rewrite count_app.
    rewrite (count_none _ (Act.fix_onfulfilled _))
      by (by apply fix_onfulfilled_effects).
    done.
Qed.

Lemma aborted_run_has_no_terminal_witness :
  Observe.count Observe.is_emitter
    (run Sample.scenario (Act.runCommand Sample.unready_host Sample.stray "act")) = O
  ∧ run Sample.scenario (Act.runCommand Sample.unready_host Sample.stray "act") =
    run {| picked := picked Sample.scenario; child_events := [] |}
      (Act.runCommand Sample.unready_host Sample.stray "act").
Proof.
  apply (aborted_run_has_no_terminal Sample.unready_host Sample.stray "act"
           Sample.scenario).
  left. discriminate.
Defined.

(** X9. In a run that passes both checks the terminal receives the header
    and then, in the order the child emits them, the chunks of standard
    output with their newlines rewritten and the chunks of standard error as
    they are; the close emitter fires once for each [close] of the child,
    with the exit code, or [0] without one. *)
Theorem ready_run_transcript h workflow command sc folder :
  Act.unreadyComponents h = [] →
  Act.workspaceFolderOf h (Act.workflow_uri workflow) = Some folder →
  Observe.written (run sc (Act.runCommand h workflow command)) =
    Observe.written (Act.header h workflow command) +:+
    foldr (λ e text, Observe.text_of e +:+ text) "" (child_events sc)
  ∧ Observe.closed (run sc (Act.runCommand h workflow command)) =
    flat_map Observe.exits_of (child_events sc).
Proof.
  intros Hnil Hsome.
  rewrite (runCommand_ready_eq _ _ _ Hnil), Hsome. unfold run.
  cbn [fst snd Act.pseudoterminal pty_open Act.open]. split.
  - rewrite !written_app, written_listeners.
    cbn [Observe.written]. by rewrite string_app_empty_r.
  - rewrite !closed_app, closed_listeners. by rewrite closed_header.
Qed.

Lemma ready_run_transcript_witness :
  Observe.written
    (run Sample.scenario (Act.runCommand Sample.ready_host Sample.ci "act")) =
    Observe.written (Act.header Sample.ready_host Sample.ci "act") +:+
    foldr (λ e text, Observe.text_of e +:+ text) "" (child_events Sample.scenario)
  ∧ Observe.closed
      (run Sample.scenario (Act.runCommand Sample.ready_host Sample.ci "act")) =
    flat_map Observe.exits_of (child_events Sample.scenario).
Proof.
  apply (ready_run_transcript Sample.ready_host Sample.ci "act" Sample.scenario
           Sample.project); reflexivity.
Defined.

(** ** The command line of [runWorkflow] *)

Lemma until_slash_no_slash cs :
  Forall (λ c, Path.is_slash c = false) (Path.until_slash cs).
Proof.
  induction cs as [|c cs IH]; simpl; [constructor|].
  destruct (Path.is_slash c) eqn:Hc; [constructor|]. by constructor.
Qed.

Lemma has_slash_of_list cs :
  Forall (λ c, Path.is_slash c = false) cs →
  Path.has_slash (String.string_of_list_ascii cs) = false.
Proof. induction 1 as [|c cs Hc _ IH]; simpl; [done|]. by rewrite Hc, IH. Qed.

Lemma parse_base_no_slash p : Path.has_slash (Path.parse_base p) = false.
Proof.
  unfold Path.parse_base. apply has_slash_of_list.
  apply Forall_forall. intros c Hc.
  pose proof (until_slash_no_slash
                (Path.drop_slashes (rev (String.list_ascii_of_string p)))) as Hall.
  rewrite Forall_forall in Hall. apply Hall.
  apply list_elem_of_In, in_rev. by apply list_elem_of_In.
Qed.

(** X10. [runWorkflow] keeps only the file name of the workflow: for a file
    of any name and extension in any directory, inside [.github/workflows]
    or not, the command line names that file under [.github/workflows]. *)
Theorem workflow_command_ignores_directory workflow dir file :
  file ≠ "" →
  Path.has_slash file = false →
  fsPath (Act.workflow_uri workflow) = dir +:+ "/" +:+ file →
  Act.workflow_command workflow =
    "act -W " +:+ JS.dquote +:+ ".github/workflows/" +:+ file +:+ JS.dquote.
Proof.
  intros Hne Hfile Hpath. unfold Act.workflow_command.
  by rewrite Hpath, parse_base_file.
Qed.

Lemma workflow_command_ignores_directory_witness :
  Act.workflow_command
    {| Act.workflow_name := "Build";
       Act.workflow_uri :=
         {| scheme := "file"; fsPath := "/tmp/drafts/build.yaml"; query := "" |} |} =
    "act -W " +:+ JS.dquote +:+ ".github/workflows/" +:+ "build.yaml" +:+ JS.dquote.
Proof.
  apply (workflow_command_ignores_directory _ "/tmp/drafts" "build.yaml");
    [discriminate|reflexivity|reflexivity].
Defined.

(** X11. Whatever the path of the workflow's file (empty, relative, ending in
    separators), the command line of [runWorkflow] is the fixed text up to
    [.github/workflows/], then one path segment, that is a name without
    separator (it may be empty or a dot name such as [..]), then a closing
    double quote. *)
Theorem workflow_command_shape workflow :
  ∃ file,
    Path.has_slash file = false
    ∧ Act.workflow_command workflow =
        "act -W " +:+ JS.dquote +:+ ".github/workflows/" +:+ file +:+ JS.dquote.
Proof.
  exists (Path.parse_base (fsPath (Act.workflow_uri workflow))).
  split; [apply parse_base_no_slash|done].
Qed.

(** ** [Act.install] on top of the constructor *)

Lemma list_to_map_cons_ne_empty (k v : string) (table : list (string * string)) :
  (list_to_map ((k, v) :: table) : gmap string string) ≠ ∅.
Proof. cbn [list_to_map foldr uncurry]. apply insert_non_empty. Qed.

(** X12. On a platform other than [win32], [darwin] and [linux], whose
    table is empty, [install] makes no call for a name unless the name is a
    member of [Object.prototype]: it makes a call exactly for those
    names. *)
Theorem install_nothing_elsewhere platform packageManager :
  platform ≠ "win32" → platform ≠ "darwin" → platform ≠ "linux" →
  Act.install (Act.constructor platform) packageManager = []
  ↔ packageManager ∉ JS.Object_prototype.
Proof.
  intros Hw Hd Hl. rewrite install_constructor.
  unfold Act.constructor. rewrite !String_eqb_false by done.
  cbn [Act.installationCommands]. rewrite lookup_empty.
  destruct (bool_decide_reflect (packageManager ∈ JS.Object_prototype)); split;
    done.
Qed.

Lemma install_nothing_elsewhere_witness :
  Act.install (Act.constructor "freebsd") "Homebrew" = []
  ↔ "Homebrew" ∉ JS.Object_prototype.
Proof.
  apply (install_nothing_elsewhere "freebsd" "Homebrew"); discriminate.
Defined.

(** X20. On every platform and for every name: a name of the installation
    table makes [install] execute one task, the shell execution of the
    table's command; a name that is neither in the table nor a member of
    [Object.prototype] makes it do nothing; and no other name makes it do
    nothing. *)
Theorem install_by_name platform packageManager :
  (∀ command,
     Act.installationCommands (Act.constructor platform) !! packageManager
       = Some command →
     Act.install (Act.constructor platform) packageManager =
       [executeTask (Act.install_task (JS.Str command))]
     ∧ execution (Act.install_task (JS.Str command)) = ShellExecution (JS.Str command))
  ∧ (Act.install (Act.constructor platform) packageManager = []
     ↔ Act.installationCommands (Act.constructor platform) !! packageManager = None
       ∧ packageManager ∉ JS.Object_prototype).
Proof.
  rewrite install_constructor. split.
  - intros command ->. done.
  - destruct (Act.installationCommands (Act.constructor platform) !! packageManager)
      as [command|]; [split; [done|by intros [? _]]|].
    destruct (bool_decide_reflect (packageManager ∈ JS.Object_prototype)); split;
      try done.
    by intros [_ ?].
Qed.

(** X13. The two tables of the constructor go together: on every platform
    the table of installation commands is empty exactly when the table of
    prebuilt executables is, and that is exactly on the platforms other than
    [win32], [darwin] and [linux]. *)
Theorem constructor_tables_empty_together platform :
  (Act.installationCommands (Act.constructor platform) = ∅
   ↔ platform ≠ "win32" ∧ platform ≠ "darwin" ∧ platform ≠ "linux")
  ∧ (Act.prebuiltExecutables (Act.constructor platform) = ∅
     ↔ platform ≠ "win32" ∧ platform ≠ "darwin" ∧ platform ≠ "linux").
Proof.
  unfold Act.constructor.
  destruct (String.eqb_spec platform "win32") as [->|Hw].
  { split; (split; [intros He; exfalso; revert He;
                    apply list_to_map_cons_ne_empty
                   |by intros [? _]]). }
  destruct (String.eqb_spec platform "darwin") as [->|Hd].
  { split; (split; [intros He; exfalso; revert He;
                    apply list_to_map_cons_ne_empty
                   |by intros (_ & ? & _)]). }
  destruct (String.eqb_spec platform "linux") as [->|Hl].
  { split; (split; [intros He; exfalso; revert He;
                    apply list_to_map_cons_ne_empty
                   |by intros (_ & _ & ?)]). }
  done.
Qed.

(** ** [ConfigurationManager.initialize] beyond the early return *)

Lemma get_set_eq cfg section value :
  ConfigurationManager.get (ConfigurationManager.set cfg section value) section
  = Some value.
Proof. apply lookup_insert_eq. Qed.

Lemma get_set_ne cfg section section' value :
  section ≠ section' →
  ConfigurationManager.get (ConfigurationManager.set cfg section value) section'
  = ConfigurationManager.get cfg section'.
Proof.
  intros Hne. apply lookup_insert_ne. by destruct section, section'.
Qed.

Lemma truthy_Some_false value : JS.truthy (Some value) = false ↔ value = "".
Proof. by destruct value. Qed.

(** What the first [if] of [initialize] leaves behind when it does not
    return: a truthy Docker Desktop path, and every other section as it
    was. *)
Lemma initialize_docker_Some platform cfg cfg1 sets :
  ConfigurationManager.initialize_docker platform cfg = Some (cfg1, sets) →
  JS.truthy (ConfigurationManager.get cfg1 ConfigurationManager.dockerDesktopPath) = true
  ∧ (∀ k, k ≠ "dockerDesktopPath" → cfg1 !! k = cfg !! k)
  ∧ (JS.truthy (ConfigurationManager.get cfg ConfigurationManager.dockerDesktopPath) = true →
     cfg1 = cfg ∧ sets = []).
Proof.
  unfold ConfigurationManager.initialize_docker.
  destruct (JS.truthy (ConfigurationManager.get cfg
              ConfigurationManager.dockerDesktopPath)) eqn:Hd; cbn [negb].
  - intros [= <- <-]. done.
  - destruct (String.eqb platform _);
      [|destruct (String.eqb platform _); [|done]];
      intros [= <- <-]; (split; [by rewrite get_set_eq|]);
      (split; [|done]); intros k Hk;
      unfold ConfigurationManager.set; by rewrite lookup_insert_ne.
Qed.

Lemma initialize_docker_truthy platform cfg :
  JS.truthy (ConfigurationManager.get cfg ConfigurationManager.dockerDesktopPath) = true →
  ConfigurationManager.initialize_docker platform cfg = Some (cfg, []).
Proof.
  intros Hd. unfold ConfigurationManager.initialize_docker. by rewrite Hd.
Qed.

Lemma set_set_eq cfg section value :
  ConfigurationManager.set (ConfigurationManager.set cfg section value) section value
  = ConfigurationManager.set cfg section value.
Proof. unfold ConfigurationManager.set. apply insert_insert_eq. Qed.

(** The second [if] of [initialize], from settings whose Docker Desktop path
    is truthy. *)
Lemma initialize_from_docker defaultActCommand platform cfg :
  JS.truthy (ConfigurationManager.get cfg ConfigurationManager.dockerDesktopPath) = true →
  ConfigurationManager.initialize defaultActCommand platform cfg =
    if JS.truthy (ConfigurationManager.get cfg ConfigurationManager.actCommand)
    then (cfg, [])
    else (ConfigurationManager.set cfg ConfigurationManager.actCommand defaultActCommand,
          [(ConfigurationManager.actCommand, defaultActCommand)]).
Proof.
  intros Hd. unfold ConfigurationManager.initialize.
  rewrite (initialize_docker_truthy _ _ Hd).
  by destruct (JS.truthy (ConfigurationManager.get cfg ConfigurationManager.actCommand)).
Qed.

(** X14. Running [initialize] again changes nothing: the settings after two
    runs are the settings after one. When the default act command is not
    the empty string, the second run makes no [set] call at all. *)
Theorem initialize_idempotent defaultActCommand platform cfg :
  let once := ConfigurationManager.initialize defaultActCommand platform cfg in
  let twice := ConfigurationManager.initialize defaultActCommand platform once.1 in
  twice.1 = once.1 ∧ (defaultActCommand ≠ "" → twice.2 = []).
Proof.
  intros once twice. subst twice.
  assert (once = ConfigurationManager.initialize defaultActCommand platform cfg)
    as Honce by done.
  clearbody once. unfold ConfigurationManager.initialize in Honce.
  destruct (ConfigurationManager.initialize_docker platform cfg)
    as [[cfg1 sets]|] eqn:Hdocker.
  - destruct (initialize_docker_Some _ _ _ _ Hdocker) as (Hd & Hframe & _).
    assert (ConfigurationManager.get cfg1 ConfigurationManager.dockerDesktopPath =
            ConfigurationManager.get
              (ConfigurationManager.set cfg1 ConfigurationManager.actCommand
                 defaultActCommand) ConfigurationManager.dockerDesktopPath) as Hsame.
    { by rewrite get_set_ne. }
    destruct (JS.truthy (ConfigurationManager.get cfg1 ConfigurationManager.actCommand))
      eqn:Hact; cbn [negb] in Honce; subst once; cbn [fst snd].
    + rewrite initialize_from_docker by done. by rewrite Hact.
    + rewrite initialize_from_docker by (by rewrite <- Hsame).
      rewrite get_set_eq.
      destruct (JS.truthy (Some defaultActCommand)) eqn:Hdef; cbn [fst snd].
      * done.
      * split; [apply set_set_eq|]. intros Hne.
        apply truthy_Some_false in Hdef. done.
  - subst once. cbn [fst snd]. unfold ConfigurationManager.initialize.
    by rewrite Hdocker.
Qed.

(** X15. [initialize] never replaces a setting that has a truthy value, and
    it touches no section other than [actCommand] and
    [dockerDesktopPath]. *)
Theorem initialize_keeps_user_settings defaultActCommand platform cfg :
  (∀ section,
     JS.truthy (ConfigurationManager.get cfg section) = true →
     ConfigurationManager.get
       (ConfigurationManager.initialize defaultActCommand platform cfg).1 section
     = ConfigurationManager.get cfg section)
  ∧ (∀ k : string,
       k ≠ "actCommand" → k ≠ "dockerDesktopPath" →
       (ConfigurationManager.initialize defaultActCommand platform cfg).1 !! k
       = cfg !! k).
Proof.
  unfold ConfigurationManager.initialize.
  destruct (ConfigurationManager.initialize_docker platform cfg)
    as [[cfg1 sets]|] eqn:Hdocker; [|done].
  destruct (initialize_docker_Some _ _ _ _ Hdocker) as (Hd & Hframe & Hkeep).
  assert (ConfigurationManager.get cfg1 ConfigurationManager.actCommand =
          ConfigurationManager.get cfg ConfigurationManager.actCommand) as Hact.
  { by apply Hframe. }
  split.
  - intros section Htruthy.
    destruct (JS.truthy (ConfigurationManager.get cfg1 ConfigurationManager.actCommand))
      eqn:Hact1; cbn [negb fst].
    + destruct section; [done|]. by destruct (Hkeep Htruthy) as [-> _].
    + destruct section.
      * rewrite Hact in Hact1. congruence.
      * rewrite get_set_ne by done. by destruct (Hkeep Htruthy) as [-> _].
  - intros k Hk1 Hk2.
    destruct (JS.truthy (ConfigurationManager.get cfg1 ConfigurationManager.actCommand));
      cbn [negb fst].
    + by apply Hframe.
    + unfold ConfigurationManager.set. cbn [ConfigurationManager.Section_value].
      rewrite lookup_insert_ne by done. by apply Hframe.
Qed.

(** The [set] calls of [initialize], read off the settings it starts from:
    the Docker Desktop path first, [actCommand] next. *)
Lemma initialize_sets defaultActCommand platform cfg :
  (ConfigurationManager.initialize defaultActCommand platform cfg).2 =
    (if JS.truthy (ConfigurationManager.get cfg ConfigurationManager.dockerDesktopPath)
     then []
     else if String.eqb platform "win32"
     then [(ConfigurationManager.dockerDesktopPath,
            "C:/Program Files/Docker/Docker/Docker Desktop.exe")]
     else if String.eqb platform "darwin"
     then [(ConfigurationManager.dockerDesktopPath, "/Applications/Docker.app")]
     else [])
    ++
    (if (JS.truthy (ConfigurationManager.get cfg ConfigurationManager.dockerDesktopPath)
         || String.eqb platform "win32" || String.eqb platform "darwin")
        && negb (JS.truthy (ConfigurationManager.get cfg ConfigurationManager.actCommand))
     then [(ConfigurationManager.actCommand, defaultActCommand)]
     else []).
Proof.
  unfold ConfigurationManager.initialize, ConfigurationManager.initialize_docker.
  cbn [ConfigurationManager.Platform_value].
  destruct (JS.truthy (ConfigurationManager.get cfg
              ConfigurationManager.dockerDesktopPath)); cbn [negb orb].
  - by destruct (JS.truthy (ConfigurationManager.get cfg
                   ConfigurationManager.actCommand)).
  - destruct (String.eqb platform "win32"); cbn [orb].
    + rewrite get_set_ne by done.
      by destruct (JS.truthy (ConfigurationManager.get cfg
                     ConfigurationManager.actCommand)).
    + destruct (String.eqb platform "darwin"); cbn [orb andb]; [|done].
      rewrite get_set_ne by done.
      by destruct (JS.truthy (ConfigurationManager.get cfg
                     ConfigurationManager.actCommand)).
Qed.

(** X16. [initialize] writes [actCommand] exactly when that section has no
    truthy value and the Docker Desktop path has one or the platform is
    Windows or macOS, and the value written is the default act command; it
    writes the Docker Desktop path exactly when that section has no truthy
    value and the platform is Windows or macOS, with the platform's path. *)
Theorem initialize_writes_iff defaultActCommand platform cfg value :
  ((ConfigurationManager.actCommand, value)
     ∈ (ConfigurationManager.initialize defaultActCommand platform cfg).2
   ↔ value = defaultActCommand
     ∧ JS.truthy (ConfigurationManager.get cfg ConfigurationManager.actCommand) = false
     ∧ (JS.truthy (ConfigurationManager.get cfg ConfigurationManager.dockerDesktopPath) = true
        ∨ platform = "win32" ∨ platform = "darwin"))
  ∧ ((ConfigurationManager.dockerDesktopPath, value)
       ∈ (ConfigurationManager.initialize defaultActCommand platform cfg).2
     ↔ JS.truthy (ConfigurationManager.get cfg ConfigurationManager.dockerDesktopPath) = false
       ∧ (platform = "win32"
          ∧ value = "C:/Program Files/Docker/Docker/Docker Desktop.exe"
          ∨ platform = "darwin" ∧ value = "/Applications/Docker.app")).
Proof.
  rewrite initialize_sets.
  destruct (JS.truthy (ConfigurationManager.get cfg
              ConfigurationManager.dockerDesktopPath));
    destruct (JS.truthy (ConfigurationManager.get cfg
                ConfigurationManager.actCommand));
    destruct (String.eqb_spec platform "win32") as [->|Hw];
    try destruct (String.eqb_spec platform "darwin") as [->|Hd];
    cbn [orb andb negb app String.eqb Ascii.eqb Bool.eqb];
    (split; [|]); rewrite ?elem_of_cons, ?elem_of_nil;
    intuition congruence.
Qed.

(** X17. Provided the default act command is not the empty string: after
    [initialize], on any platform, a truthy Docker Desktop path comes with a
    truthy [actCommand]; and on Windows and macOS the Docker Desktop path is
    truthy afterwards. *)
Theorem initialize_postcondition defaultActCommand platform cfg :
  defaultActCommand ≠ "" →
  let after := (ConfigurationManager.initialize defaultActCommand platform cfg).1 in
  (JS.truthy (ConfigurationManager.get after ConfigurationManager.dockerDesktopPath) = true →
   JS.truthy (ConfigurationManager.get after ConfigurationManager.actCommand) = true)
  ∧ (platform = "win32" ∨ platform = "darwin" →
     JS.truthy (ConfigurationManager.get after ConfigurationManager.dockerDesktopPath) = true).
Proof.
  intros Hdef after. subst after.
  assert (JS.truthy (Some defaultActCommand) = true) as Htd.
  { by destruct defaultActCommand. }
  unfold ConfigurationManager.initialize.
  destruct (ConfigurationManager.initialize_docker platform cfg)
    as [[cfg1 sets]|] eqn:Hdocker.
  - destruct (initialize_docker_Some _ _ _ _ Hdocker) as (Hd & _ & _).
    destruct (JS.truthy (ConfigurationManager.get cfg1 ConfigurationManager.actCommand))
      eqn:Hact; cbn [negb fst].
    + done.
    + by rewrite get_set_eq, get_set_ne.
  - cbn [fst]. unfold ConfigurationManager.initialize_docker in Hdocker.
    cbn [ConfigurationManager.Platform_value] in Hdocker.
    destruct (JS.truthy (ConfigurationManager.get cfg
                ConfigurationManager.dockerDesktopPath)); [done|].
    cbn [negb] in Hdocker. split; [done|].
    intros [-> | ->]; done.
Qed.

Lemma initialize_postcondition_witness :
  (JS.truthy (ConfigurationManager.get
      (ConfigurationManager.initialize "act" "win32" ∅).1
      ConfigurationManager.dockerDesktopPath) = true →
   JS.truthy (ConfigurationManager.get
      (ConfigurationManager.initialize "act" "win32" ∅).1
      ConfigurationManager.actCommand) = true)
  ∧ ("win32" = "win32" ∨ "win32" = "darwin" →
     JS.truthy (ConfigurationManager.get
        (ConfigurationManager.initialize "act" "win32" ∅).1
        ConfigurationManager.dockerDesktopPath) = true).
Proof.
  apply (initialize_postcondition "act" "win32" ∅). discriminate.
Defined.

(** X18. A section whose value is the empty string is handled like a section
    without a value: [initialize] makes the same [set] calls in both cases. *)
Theorem initialize_empty_like_missing defaultActCommand platform cfg section :
  (ConfigurationManager.initialize defaultActCommand platform
     (ConfigurationManager.set cfg section "")).2
  = (ConfigurationManager.initialize defaultActCommand platform
       (delete (ConfigurationManager.Section_value section) cfg)).2.
Proof.
  rewrite !initialize_sets.
  assert (∀ section',
    JS.truthy (ConfigurationManager.get
                 (ConfigurationManager.set cfg section "") section')
    = JS.truthy (ConfigurationManager.get
                   (delete (ConfigurationManager.Section_value section) cfg)
                   section')) as Hsame.
  { intros section'. unfold ConfigurationManager.get, ConfigurationManager.set.
    destruct section, section'; cbn [ConfigurationManager.Section_value];
      first [by rewrite lookup_insert_eq, lookup_delete_eq
            |by rewrite lookup_insert_ne, lookup_delete_ne]. }
  by rewrite !Hsame.
Qed.

(** ** [DecorationProvider.provideFileDecoration] by scheme *)

(** X19. Whatever the context values, the members of [Status] and the query
    parser are: the green and the yellow decorations are given on the
    components' scheme only, and a URI of any other scheme gets the red
    decoration or none. *)
Theorem decoration_colours_by_scheme
    component workflow enabled warning disabled parse uri :
  let decoration :=
    DecorationProvider.provideFileDecoration
      component workflow enabled warning disabled parse uri in
  (decoration = Some DecorationProvider.green
   ∨ decoration = Some DecorationProvider.yellow →
   scheme uri = component)
  ∧ (scheme uri ≠ component →
     decoration = None ∨ decoration = Some DecorationProvider.red).
Proof.
  intros decoration. subst decoration.
  unfold DecorationProvider.provideFileDecoration.
  destruct (String.eqb_spec (scheme uri) component) as [Hc|Hc]; [done|].
  destruct (String.eqb (scheme uri) workflow);
    [destruct (JS.truthy _)|]; (split; [intros [?|?]; done|auto]).
Qed.
